(** * Red-Oak: the Airtable pagination proxy

    A shallow embedding of the two deployments of the serverless function,

    - [ServerlessAirtable]: [src/serverless-airtable.js], the multi-platform
      version, which addresses the table by name;
    - [ApiAirtable]: the Vercel version (the second file of
      [src/unnamed/part_000]), which addresses the table by id,

    and the properties of their page fetcher, pagination loop and request
    handler.  The first file of [src/unnamed/part_000], a script that runs
    a copy of the same logic against a mock response object, is embedded as
    [LocalTest], and the two URLs of [src/test-api.js] as [TestApi].

    Conventions of the embedding.

    - A JavaScript string is the sequence of bytes of its UTF-8 encoding
      ([string]); all strings are taken to be well-formed Unicode.
    - Values that come out of [JSON.parse] are terms of [JSON].  A number is
      kept as the text [Number.prototype.toString] prints for it, which is
      all the program ever does with a number (print it, test it for zero).
      An object is the list of its properties in enumeration order.
    - The network is an [Upstream]: a function from the requests issued so
      far and the current request to what [fetch] answers.  The state
      threaded through the program is the list of requests issued so far.
    - Every promise is awaited where it is created, so [async]/[await] is
      plain sequencing in the monad [M].
    - The [do ... while] loop of [fetchAllRecords] may run forever; it is
      given fuel, and [OutOfFuel] marks a run that needs more iterations.
    - [console] output does not influence results or control flow and is
      left out, with the [pageCount] counter that only feeds it.
    - The wording of the errors the engine raises itself, and the stack
      traces, are parameters ([Engine]). *)

From Stdlib Require Import List String Ascii Bool Arith NArith Lia DecimalString.
Import ListNotations.

Local Open Scope string_scope.
Local Open Scope list_scope.

Infix "+++" := String.append (right associativity, at level 60).

(* ------------------------------------------------------------------ *)
(** ** JavaScript values *)

#[local] Set Warnings "-register-all".

Inductive JSON : Type :=
| JNull
| JBool (b : bool)
| JNum (repr : string)
| JStr (s : string)
| JArr (items : list JSON)
| JObj (fields : list (string * JSON)).

(** [ToBoolean]: what [if (v)], [v || d] and [while (v)] test. *)
Definition truthy (v : JSON) : bool :=
  match v with
  | JNull => false
  | JBool b => b
  | JNum repr => negb (repr =? "0")%string
  | JStr s => negb (s =? "")%string
  | JArr _ => true
  | JObj _ => true
  end.

(** [ToString], as applied by [URLSearchParams.append] to its value. *)
Fixpoint ToString (v : JSON) : string :=
  match v with
  | JNull => "null"
  | JBool true => "true"
  | JBool false => "false"
  | JNum repr => repr
  | JStr s => s
  | JArr items =>
      (fix join (l : list JSON) : string :=
         match l with
         | [] => ""
         | x :: rest =>
             let sx := match x with JNull => "" | _ => ToString x end in
             match rest with
             | [] => sx
             | _ :: _ => sx +++ "," +++ join rest
             end
         end) items
  | JObj _ => "[object Object]"
  end.

Fixpoint assoc (k : string) (fields : list (string * JSON)) : option JSON :=
  match fields with
  | [] => None
  | (k', v) :: rest => if (k' =? k)%string then Some v else assoc k rest
  end.

(** [v || d] where [v] may be [undefined] ([None]). *)
Definition or_else (v : option JSON) (d : JSON) : JSON :=
  match v with
  | Some x => if truthy x then x else d
  | None => d
  end.

(** [!!v] where [v] may be [undefined]. *)
Definition to_bool (v : option JSON) : bool :=
  match v with
  | Some x => truthy x
  | None => false
  end.

(** [String.prototype.includes]. *)
Fixpoint includes (s sub : string) : bool :=
  prefix sub s ||
  match s with
  | EmptyString => false
  | String _ rest => includes rest sub
  end.

(** The iteration of a string, by code point: a lead byte with the
    continuation bytes (10xxxxxx) that follow it. *)
Definition is_continuation (c : ascii) : bool :=
  let n := nat_of_ascii c in ((128 <=? n) && (n <? 192))%nat.

Fixpoint code_points (s : string) : list string :=
  match s with
  | EmptyString => []
  | String c rest =>
      let starts_continuation :=
        match rest with
        | String d _ => is_continuation d
        | EmptyString => false
        end in
      match code_points rest with
      | chunk :: more =>
          if starts_continuation then String c chunk :: more
          else String c EmptyString :: chunk :: more
      | [] => [String c EmptyString]
      end
  end.

Definition string_of_N (n : N) : string :=
  NilEmpty.string_of_uint (N.to_uint n).

Definition string_of_nat (n : nat) : string :=
  NilEmpty.string_of_uint (Nat.to_uint n).

(* ------------------------------------------------------------------ *)
(** ** URL encoding *)

Definition is_alnum (c : ascii) : bool :=
  let n := nat_of_ascii c in
  (((48 <=? n) && (n <=? 57)) || ((65 <=? n) && (n <=? 90))
   || ((97 <=? n) && (n <=? 122)))%nat.

Definition hex_digit (n : nat) : ascii :=
  nth n ["0"; "1"; "2"; "3"; "4"; "5"; "6"; "7"; "8"; "9";
         "A"; "B"; "C"; "D"; "E"; "F"]%char "0"%char.

Definition percent_encode_byte (c : ascii) : string :=
  let n := nat_of_ascii c in
  String "%" (String (hex_digit (n / 16)) (String (hex_digit (n mod 16)) "")).

Fixpoint encode_with (enc : ascii -> string) (s : string) : string :=
  match s with
  | EmptyString => ""
  | String c rest => enc c +++ encode_with enc rest
  end.

(** [encodeURIComponent]: everything but [A-Z a-z 0-9 - _ . ! ~ * ' ( )]
    is percent-encoded. *)
Definition uri_unreserved (c : ascii) : bool :=
  is_alnum c || includes "-_.!~*'()" (String c "").

Definition encodeURIComponent (s : string) : string :=
  encode_with (fun c => if uri_unreserved c then String c ""
                        else percent_encode_byte c) s.

(** The [application/x-www-form-urlencoded] serializer behind
    [URLSearchParams.prototype.toString]: a space becomes [+], the bytes
    [* - . _ 0-9 A-Z a-z] stay, the rest is percent-encoded. *)
Definition form_safe (c : ascii) : bool :=
  is_alnum c || includes "*-._" (String c "").

Definition form_urlencode_byte (c : ascii) : string :=
  if (c =? " ")%char then "+"
  else if form_safe c then String c ""
  else percent_encode_byte c.

Definition form_urlencode (s : string) : string :=
  encode_with form_urlencode_byte s.

Fixpoint join_with (sep : string) (l : list string) : string :=
  match l with
  | [] => ""
  | [x] => x
  | x :: rest => x +++ sep +++ join_with sep rest
  end.

Definition URLSearchParams_toString (params : list (string * string)) : string :=
  join_with "&"
    (map (fun p => form_urlencode (fst p) +++ "=" +++ form_urlencode (snd p))
         params).

(** The receiving side: how a query string is read back into its list of
    parameters (the [application/x-www-form-urlencoded] parser).  It is not
    part of the program; it states what the upstream finds in a URL. *)
Definition hex_value (c : ascii) : option nat :=
  let n := nat_of_ascii c in
  (if (48 <=? n) && (n <=? 57) then Some (n - 48)
   else if (65 <=? n) && (n <=? 70) then Some (n - 55)
   else if (97 <=? n) && (n <=? 102) then Some (n - 87)
   else None)%nat.

Fixpoint form_urldecode (s : string) : string :=
  match s with
  | EmptyString => ""
  | String c rest =>
      if (c =? "+")%char then String " " (form_urldecode rest)
      else if (c =? "%")%char then
        match rest with
        | String h (String l rest') =>
            match hex_value h, hex_value l with
            | Some a, Some b =>
                String (ascii_of_nat (16 * a + b)) (form_urldecode rest')
            | _, _ => String c (form_urldecode rest)
            end
        | _ => String c (form_urldecode rest)
        end
      else String c (form_urldecode rest)
  end.

Fixpoint split_on (sep : ascii) (s : string) : list string :=
  match s with
  | EmptyString => [""]
  | String c rest =>
      if (c =? sep)%char then "" :: split_on sep rest
      else match split_on sep rest with
           | h :: t => String c h :: t
           | [] => [String c ""]
           end
  end.

Fixpoint cut_at (sep : ascii) (s : string) : string * string :=
  match s with
  | EmptyString => ("", "")
  | String c rest =>
      if (c =? sep)%char then ("", rest)
      else let (a, b) := cut_at sep rest in (String c a, b)
  end.

Definition parse_urlencoded (query : string) : list (string * string) :=
  map (fun piece =>
         let (k, v) := cut_at "=" piece in (form_urldecode k, form_urldecode v))
      (filter (fun piece => negb (piece =? "")%string) (split_on "&" query)).

(** [avoids x s]: the byte [x] does not occur in [s]. *)
Fixpoint avoids (x : ascii) (s : string) : bool :=
  match s with
  | EmptyString => true
  | String c rest => negb (c =? x)%char && avoids x rest
  end.

(** One [name=value] piece of a serialized query. *)
Definition serialize_pair (p : string * string) : string :=
  form_urlencode (fst p) +++ "=" +++ form_urlencode (snd p).

(* ------------------------------------------------------------------ *)
(** ** [JSON.stringify(value, null, 2)] *)

Definition dquote : ascii := ascii_of_nat 34.
Definition newline : string := String (ascii_of_nat 10) "".

Definition hex_digit_lower (n : nat) : ascii :=
  nth n ["0"; "1"; "2"; "3"; "4"; "5"; "6"; "7"; "8"; "9";
         "a"; "b"; "c"; "d"; "e"; "f"]%char "0"%char.

Definition quote_byte (c : ascii) : string :=
  let n := nat_of_ascii c in
  if (n =? 8)%nat then "\b"
  else if (n =? 9)%nat then "\t"
  else if (n =? 10)%nat then "\n"
  else if (n =? 12)%nat then "\f"
  else if (n =? 13)%nat then "\r"
  else if (n =? 34)%nat then String "\" (String dquote "")
  else if (n =? 92)%nat then "\\"
  else if (n <? 32)%nat then
    "\u00" +++ String (hex_digit_lower (n / 16))
                 (String (hex_digit_lower (n mod 16)) "")
  else String c "".

Definition quote (s : string) : string :=
  String dquote (encode_with quote_byte s) +++ String dquote "".

Fixpoint stringify (indent : string) (v : JSON) : string :=
  match v with
  | JNull => "null"
  | JBool true => "true"
  | JBool false => "false"
  | JNum repr => repr
  | JStr s => quote s
  | JArr [] => "[]"
  | JArr items =>
      let inner := indent +++ "  " in
      "[" +++ newline +++ inner
      +++ join_with ("," +++ newline +++ inner) (map (stringify inner) items)
      +++ newline +++ indent +++ "]"
  | JObj [] => "{}"
  | JObj fields =>
      let inner := indent +++ "  " in
      "{" +++ newline +++ inner
      +++ join_with ("," +++ newline +++ inner)
            (map (fun kv => quote (fst kv) +++ ": " +++ stringify inner (snd kv))
                 fields)
      +++ newline +++ indent +++ "}"
  end.

Definition JSON_stringify_2 (v : JSON) : string := stringify "" v.

(* ------------------------------------------------------------------ *)
(** ** Errors, the network and the effect monad *)

(** A thrown [Error] object. *)
Record JsError := { name : string; message : string; stack : string }.

(** What the JavaScript engine decides: the stack trace it attaches to a new
    error and the wording of the errors it raises itself. *)
Record Engine := {
  stack_trace : string -> string -> string;
  json_syntax_message : string -> string;
  null_property_message : string -> string;
  not_iterable_message : JSON -> string
}.

(** The second argument of [fetch]. *)
Record Request := {
  url : string;
  fetch_method : string;
  fetch_headers : list (string * string)
}.

(** A [Response]: its status, what [text()] gives and what [JSON.parse]
    makes of that text ([None]: the text is not JSON). *)
Record Response := { status : N; text : string; parsed : option JSON }.

Definition ok (r : Response) : bool :=
  ((200 <=? status r) && (status r <=? 299))%N.

Inductive FetchResult :=
| Rejected (e : JsError)
| Resolved (r : Response).

Definition World := list Request.
Definition Upstream := World -> Request -> FetchResult.

Inductive Outcome (A : Type) :=
| Returns (a : A)
| Throws (e : JsError)
| OutOfFuel.

Arguments Returns {A} a.
Arguments Throws {A} e.
Arguments OutOfFuel {A}.

Definition M (A : Type) := World -> Outcome A * World.

Definition ret {A} (a : A) : M A := fun w => (Returns a, w).
Definition throw {A} (e : JsError) : M A := fun w => (Throws e, w).
Definition out_of_fuel {A} : M A := fun w => (OutOfFuel, w).

Definition bind {A B} (m : M A) (k : A -> M B) : M B :=
  fun w =>
    match m w with
    | (Returns a, w') => k a w'
    | (Throws e, w') => (Throws e, w')
    | (OutOfFuel, w') => (OutOfFuel, w')
    end.

(** [try { m } catch (error) { h error }] *)
Definition try_catch {A} (m : M A) (h : JsError -> M A) : M A :=
  fun w =>
    match m w with
    | (Throws e, w') => h e w'
    | other => other
    end.

Notation "x <- m ;; k" := (bind m (fun x => k))
  (at level 61, m at next level, right associativity).

(** [do { body } while (cond)] over the loop's variables. *)
Fixpoint do_while {S} (body : S -> M S) (cond : S -> bool) (fuel : nat) (s : S)
  : M S :=
  match fuel with
  | O => out_of_fuel
  | Datatypes.S fuel' =>
      s' <- body s ;;
      if cond s' then do_while body cond fuel' s' else ret s'
  end.

Section Runtime.

Variable engine : Engine.
Variable upstream : Upstream.

Definition new_Error (msg : string) : JsError :=
  {| name := "Error"; message := msg; stack := stack_trace engine "Error" msg |}.

Definition new_TypeError (msg : string) : JsError :=
  {| name := "TypeError"; message := msg;
     stack := stack_trace engine "TypeError" msg |}.

Definition new_SyntaxError (msg : string) : JsError :=
  {| name := "SyntaxError"; message := msg;
     stack := stack_trace engine "SyntaxError" msg |}.

(** [await fetch(url, init)]: the request is issued, and recorded. *)
Definition fetch (req : Request) : M Response :=
  fun w =>
    match upstream w req with
    | Rejected e => (Throws e, w ++ [req])
    | Resolved r => (Returns r, w ++ [req])
    end.

(** [await response.json()] *)
Definition response_json (r : Response) : M JSON :=
  match parsed r with
  | Some v => ret v
  | None => throw (new_SyntaxError (json_syntax_message engine (text r)))
  end.

(** [data.p]: [undefined] ([None]) unless [data] is an object with that
    property; reading a property of [null] throws. *)
Definition get_property (data : JSON) (p : string) : M (option JSON) :=
  match data with
  | JNull => throw (new_TypeError (null_property_message engine p))
  | JObj fields => ret (assoc p fields)
  | _ => ret None
  end.

(** [allRecords.push(...records)] *)
Definition push_spread (allRecords : list JSON) (records : JSON)
  : M (list JSON) :=
  match records with
  | JArr items => ret (allRecords ++ items)
  | JStr s => ret (allRecords ++ map JStr (code_points s))
  | other => throw (new_TypeError (not_iterable_message engine other))
  end.

End Runtime.

(** What [fetchPage] returns. *)
Module PageData.
Record t := { records : JSON; offset : JSON; hasMore : bool }.
End PageData.

(** A truthy environment variable or constant. *)
Definition is_set (v : option string) : bool :=
  match v with
  | Some s => negb (s =? "")%string
  | None => false
  end.

(** [`${v}`] for a variable that may be [undefined]. *)
Definition template (v : option string) : string :=
  match v with
  | Some s => s
  | None => "undefined"
  end.

(** [v === s] for a variable that may be [undefined]. *)
Definition strict_eq (v : option string) (s : string) : bool :=
  match v with
  | Some x => (x =? s)%string
  | None => false
  end.

(** The inbound request and the response object the platform hands to the
    handler. *)
Record Req := { method : string }.

Inductive Body :=
| NotSent
| Ended
| Json (data : JSON).

Record Res := { headers : list (string * string); statusCode : N; body : Body }.

Definition fresh_res : Res := {| headers := []; statusCode := 200; body := NotSent |}.

Fixpoint set_assoc (k v : string) (l : list (string * string))
  : list (string * string) :=
  match l with
  | [] => [(k, v)]
  | (k', v') :: rest =>
      if (k' =? k)%string then (k, v) :: rest else (k', v') :: set_assoc k v rest
  end.

Definition setHeader (res : Res) (k v : string) : Res :=
  {| headers := set_assoc k v (headers res);
     statusCode := statusCode res; body := body res |}.

Definition res_status (res : Res) (code : N) : Res :=
  {| headers := headers res; statusCode := code; body := body res |}.

Definition res_json (res : Res) (data : JSON) : Res :=
  {| headers := headers res; statusCode := statusCode res; body := Json data |}.

Definition res_end (res : Res) : Res :=
  {| headers := headers res; statusCode := statusCode res; body := Ended |}.

(** A property that [res.json] omits when its value is [undefined]. *)
Definition opt_field (k : string) (v : option string) : list (string * JSON) :=
  match v with
  | Some s => [(k, JStr s)]
  | None => []
  end.

(* ------------------------------------------------------------------ *)
(** ** [src/serverless-airtable.js] *)

Module ServerlessAirtable.
Section Program.

Variable engine : Engine.
Variable upstream : Upstream.
Variable process_env : string -> option string.

Definition AIRTABLE_API_KEY : option string := process_env "AIRTABLE_API_KEY".
Definition AIRTABLE_BASE_ID : option string := process_env "AIRTABLE_BASE_ID".

Definition TABLE_NAME : string := "TableName".
Definition PAGE_SIZE : N := 50.
Definition FILTER_FORMULA : string := "NOT({Status}='Done')".
Definition SORT_FIELD : string := "Name".
Definition SORT_DIRECTION : string := "asc".

Definition setCORSHeaders (res : Res) : Res :=
  let res := setHeader res "Access-Control-Allow-Origin" "*" in
  let res := setHeader res "Access-Control-Allow-Methods" "GET, OPTIONS" in
  let res := setHeader res "Access-Control-Allow-Headers"
               "Content-Type, Authorization" in
  let res := setHeader res "Access-Control-Max-Age" "86400" in
  setHeader res "Content-Type" "application/json".

Definition buildAirtableURL (offset : JSON) : string :=
  let url := "https://api.airtable.com/v0/" +++ template AIRTABLE_BASE_ID
             +++ "/" +++ encodeURIComponent TABLE_NAME in
  let params : list (string * string) := [] in
  let params := params ++ [("filterByFormula", FILTER_FORMULA)] in
  let params := params ++ [("sort[0][field]", SORT_FIELD)] in
  let params := params ++ [("sort[0][direction]", SORT_DIRECTION)] in
  let params := params ++ [("pageSize", string_of_N PAGE_SIZE)] in
  let params :=
    if truthy offset then params ++ [("offset", ToString offset)]
    else params in
  url +++ "?" +++ URLSearchParams_toString params.

Definition fetchPage (offset : JSON) : M PageData.t :=
  let url := buildAirtableURL offset in
  response <- fetch upstream
    {| url := url;
       fetch_method := "GET";
       fetch_headers :=
         [("Authorization", "Bearer " +++ template AIRTABLE_API_KEY);
          ("Content-Type", "application/json")] |} ;;
  if negb (ok response) then
    let errorText := text response in
    throw (new_Error engine
             ("Airtable API error (" +++ string_of_N (status response)
              +++ "): " +++ errorText))
  else
    data <- response_json engine response ;;
    data_records <- get_property engine data "records" ;;
    data_offset <- get_property engine data "offset" ;;
    data_offset' <- get_property engine data "offset" ;;
    ret {| PageData.records := or_else data_records (JArr []);
           PageData.offset := or_else data_offset JNull;
           PageData.hasMore := to_bool data_offset' |}.

Definition fetchAllRecords (fuel : nat) : M (list JSON) :=
  let allRecords : list JSON := [] in
  let offset : JSON := JNull in
  vars <- do_while
    (fun vars : list JSON * JSON =>
       let (allRecords, offset) := vars in
       pageData <- fetchPage offset ;;
       allRecords <- push_spread engine allRecords (PageData.records pageData) ;;
       let offset := PageData.offset pageData in
       ret (allRecords, offset))
    (fun vars => truthy (snd vars))
    fuel (allRecords, offset) ;;
  ret (fst vars).

Definition handler (fuel : nat) (req : Req) (res : Res) : M Res :=
  let res := setCORSHeaders res in
  if (method req =? "OPTIONS")%string then
    ret (res_end (res_status res 200))
  else if negb (method req =? "GET")%string then
    ret (res_json (res_status res 405)
           (JObj [("error", JStr "Method not allowed");
                  ("message", JStr "Only GET requests are supported")]))
  else if negb (is_set AIRTABLE_API_KEY) then
    ret (res_json (res_status res 500)
           (JObj [("error", JStr "Server configuration error");
                  ("message",
                   JStr "AIRTABLE_API_KEY environment variable is not set")]))
  else if negb (is_set AIRTABLE_BASE_ID) then
    ret (res_json (res_status res 500)
           (JObj [("error", JStr "Server configuration error");
                  ("message",
                   JStr "AIRTABLE_BASE_ID environment variable is not set")]))
  else
    try_catch
      (allRecords <- fetchAllRecords fuel ;;
       ret (res_json (res_status res 200)
              (JObj [("success", JBool true);
                     ("records", JArr allRecords);
                     ("totalRecords",
                      JNum (string_of_nat (List.length allRecords)));
                     ("table", JStr TABLE_NAME);
                     ("filter", JStr FILTER_FORMULA);
                     ("sort", JObj [("field", JStr SORT_FIELD);
                                    ("direction", JStr SORT_DIRECTION)])])))
      (fun error =>
         let statusCode := 500%N in
         let statusCode :=
           if includes (message error) "401"
              || includes (message error) "Unauthorized" then 401%N
           else if includes (message error) "403"
                   || includes (message error) "Forbidden" then 403%N
           else if includes (message error) "404"
                   || includes (message error) "Not Found" then 404%N
           else if includes (message error) "422"
                   || includes (message error) "Unprocessable" then 422%N
           else statusCode in
         ret (res_json (res_status res statusCode)
                (JObj ([("success", JBool false);
                        ("error", JStr "Failed to fetch Airtable records");
                        ("message", JStr (message error))]
                       ++ (if strict_eq (process_env "NODE_ENV") "development"
                           then [("stack", JStr (stack error))]
                           else []))))).

End Program.
End ServerlessAirtable.

(* ------------------------------------------------------------------ *)
(** ** The Vercel function (second file of [src/unnamed/part_000]) *)

Module ApiAirtable.
Section Program.

Variable engine : Engine.
Variable upstream : Upstream.
Variable process_env : string -> option string.

Definition AIRTABLE_API_KEY : option string := process_env "AIRTABLE_API_KEY".
Definition AIRTABLE_BASE_ID : option string := process_env "AIRTABLE_BASE_ID".

(** [process.env.AIRTABLE_TABLE_ID || 'tblDrUWfwkwMQM9yR'] *)
Definition AIRTABLE_TABLE_ID : string :=
  if is_set (process_env "AIRTABLE_TABLE_ID")
  then template (process_env "AIRTABLE_TABLE_ID")
  else "tblDrUWfwkwMQM9yR".

Definition PAGE_SIZE : N := 50.
Definition FILTER_FORMULA : string := "NOT({Status}='Done')".
Definition SORT_FIELD : string := "Name".
Definition SORT_DIRECTION : string := "asc".

Definition setCORSHeaders (res : Res) : Res :=
  let res := setHeader res "Access-Control-Allow-Origin" "*" in
  let res := setHeader res "Access-Control-Allow-Methods" "GET, OPTIONS" in
  let res := setHeader res "Access-Control-Allow-Headers"
               "Content-Type, Authorization" in
  let res := setHeader res "Access-Control-Max-Age" "86400" in
  setHeader res "Content-Type" "application/json".

Definition buildAirtableURL (offset : JSON) : string :=
  let url := "https://api.airtable.com/v0/" +++ template AIRTABLE_BASE_ID
             +++ "/" +++ AIRTABLE_TABLE_ID in
  let params : list (string * string) := [] in
  let params := params ++ [("filterByFormula", FILTER_FORMULA)] in
  let params := params ++ [("sort[0][field]", SORT_FIELD)] in
  let params := params ++ [("sort[0][direction]", SORT_DIRECTION)] in
  let params := params ++ [("pageSize", string_of_N PAGE_SIZE)] in
  let params :=
    if truthy offset then params ++ [("offset", ToString offset)]
    else params in
  url +++ "?" +++ URLSearchParams_toString params.

Definition fetchPage (offset : JSON) : M PageData.t :=
  let url := buildAirtableURL offset in
  response <- fetch upstream
    {| url := url;
       fetch_method := "GET";
       fetch_headers :=
         [("Authorization", "Bearer " +++ template AIRTABLE_API_KEY);
          ("Content-Type", "application/json")] |} ;;
  if negb (ok response) then
    let errorText := text response in
    let errorDetails := errorText in
    let errorDetails :=
      match parsed response with
      | Some errorJson => JSON_stringify_2 errorJson
      | None => errorDetails
      end in
    throw (new_Error engine
             ("Airtable API error (" +++ string_of_N (status response)
              +++ "): " +++ errorDetails))
  else
    data <- response_json engine response ;;
    data_records <- get_property engine data "records" ;;
    data_offset <- get_property engine data "offset" ;;
    data_offset' <- get_property engine data "offset" ;;
    ret {| PageData.records := or_else data_records (JArr []);
           PageData.offset := or_else data_offset JNull;
           PageData.hasMore := to_bool data_offset' |}.

Definition fetchAllRecords (fuel : nat) : M (list JSON) :=
  let allRecords : list JSON := [] in
  let offset : JSON := JNull in
  vars <- do_while
    (fun vars : list JSON * JSON =>
       let (allRecords, offset) := vars in
       try_catch
         (pageData <- fetchPage offset ;;
          allRecords <- push_spread engine allRecords (PageData.records pageData) ;;
          let offset := PageData.offset pageData in
          ret (allRecords, offset))
         (fun error => throw error))
    (fun vars => truthy (snd vars))
    fuel (allRecords, offset) ;;
  ret (fst vars).

Definition handler (fuel : nat) (req : Req) (res : Res) : M Res :=
  let res := setCORSHeaders res in
  if (method req =? "OPTIONS")%string then
    ret (res_end (res_status res 200))
  else if negb (method req =? "GET")%string then
    ret (res_json (res_status res 405)
           (JObj [("success", JBool false);
                  ("error", JStr "Method not allowed");
                  ("message", JStr "Only GET requests are supported")]))
  else if negb (is_set AIRTABLE_API_KEY) then
    ret (res_json (res_status res 500)
           (JObj [("success", JBool false);
                  ("error", JStr "Server configuration error");
                  ("message",
                   JStr "AIRTABLE_API_KEY environment variable is not set")]))
  else if negb (is_set AIRTABLE_BASE_ID) then
    ret (res_json (res_status res 500)
           (JObj [("success", JBool false);
                  ("error", JStr "Server configuration error");
                  ("message",
                   JStr "AIRTABLE_BASE_ID environment variable is not set")]))
  else if (AIRTABLE_TABLE_ID =? "")%string then
    ret (res_json (res_status res 500)
           (JObj [("success", JBool false);
                  ("error", JStr "Server configuration error");
                  ("message",
                   JStr "AIRTABLE_TABLE_ID environment variable is not set")]))
  else
    try_catch
      (allRecords <- fetchAllRecords fuel ;;
       ret (res_json (res_status res 200)
              (JObj [("success", JBool true);
                     ("records", JArr allRecords);
                     ("totalRecords",
                      JNum (string_of_nat (List.length allRecords)));
                     ("table", JStr AIRTABLE_TABLE_ID);
                     ("filter", JStr FILTER_FORMULA);
                     ("sort", JObj [("field", JStr SORT_FIELD);
                                    ("direction", JStr SORT_DIRECTION)])])))
      (fun error =>
         let statusCode := 500%N in
         let errorType := "Internal server error" in
         let (statusCode, errorType) :=
           if includes (message error) "401"
              || includes (message error) "Unauthorized"
           then (401%N, "Authentication error")
           else if includes (message error) "403"
                   || includes (message error) "Forbidden"
           then (403%N, "Permission denied")
           else if includes (message error) "404"
                   || includes (message error) "Not Found"
           then (404%N, "Resource not found")
           else if includes (message error) "422"
                   || includes (message error) "Unprocessable"
           then (422%N, "Invalid request")
           else if includes (message error) "429"
                   || includes (message error) "Too Many Requests"
           then (429%N, "Rate limit exceeded")
           else (statusCode, errorType) in
         ret (res_json (res_status res statusCode)
                (JObj ([("success", JBool false);
                        ("error", JStr errorType);
                        ("message", JStr (message error))]
                       ++ (if strict_eq (process_env "NODE_ENV") "development"
                           then [("stack", JStr (stack error))]
                                ++ opt_field "baseId" AIRTABLE_BASE_ID
                                ++ [("tableId", JStr AIRTABLE_TABLE_ID)]
                           else []))))).

End Program.
End ApiAirtable.

(* ------------------------------------------------------------------ *)
(** ** Pages and upstream behaviours, for stating the properties *)

(** A page of the data model: records and an optional continuation token. *)
Record Page := { items : list JSON; next : option string }.

(** The token of a page as the loop keeps it: [null] when there is none or
    it is the empty string. *)
Definition token_json (token : option string) : JSON :=
  match token with
  | Some t => if (t =? "")%string then JNull else JStr t
  | None => JNull
  end.

(** The [offset] property of a body holds the token: the string itself, and
    for no token either no property or [null]. *)
Definition reads_as (v : option JSON) (token : option string) : Prop :=
  match token with
  | Some t => v = Some (JStr t)
  | None => v = None \/ v = Some JNull
  end.

(** A successful response whose body is the page: an object with the
    [records] array and the [offset] of the page. *)
Definition is_page (r : Response) (p : Page) : Prop :=
  ok r = true /\
  exists fields, parsed r = Some (JObj fields) /\
    assoc "records" fields = Some (JArr (items p)) /\
    reads_as (assoc "offset" fields) (next p).

(** [pages] is P1..Pn with a non-empty token on every page but the last,
    whose token is absent (or empty). *)
Fixpoint chain (pages : list Page) : bool :=
  match pages with
  | [] => false
  | [p] => negb (is_set (next p))
  | p :: rest => is_set (next p) && chain rest
  end.

(** Every page announces a successor. *)
Definition linked (pages : list Page) : bool :=
  forallb (fun p => is_set (next p)) pages.

Section PageFetcher.

Variable engine : Engine.
Variable upstream : Upstream.

(** The request a page fetcher issues for a token, and the detail text it
    puts in the error for a refused request: the two points where the two
    deployments differ. *)
Variable request_for : JSON -> Request.
Variable details : Response -> string.

Definition api_error (r : Response) : JsError :=
  new_Error engine
    ("Airtable API error (" +++ string_of_N (status r) +++ "): " +++ details r).

(** What [fetchPage] makes of a response, in one pure function: the normal
    form of the body of [fetchPage] in both files ([fetchPage_eq] below). *)
Definition read_page (r : Response) : Outcome PageData.t :=
  if ok r then
    match parsed r with
    | None => Throws (new_SyntaxError engine (json_syntax_message engine (text r)))
    | Some JNull =>
        Throws (new_TypeError engine (null_property_message engine "records"))
    | Some (JObj fields) =>
        Returns {| PageData.records := or_else (assoc "records" fields) (JArr []);
                   PageData.offset := or_else (assoc "offset" fields) JNull;
                   PageData.hasMore := to_bool (assoc "offset" fields) |}
    | Some _ =>
        Returns {| PageData.records := JArr [];
                   PageData.offset := JNull;
                   PageData.hasMore := false |}
    end
  else Throws (api_error r).

(** One page fetch: the request goes out, and what comes back is read. *)
Definition page_fetch (offset : JSON) : M PageData.t :=
  fun w =>
    (match upstream w (request_for offset) with
     | Rejected e => Throws e
     | Resolved r => read_page r
     end, w ++ [request_for offset]).

(** The upstream answers the calls that start at world [w] with token
    [offset] by the pages, one after the other. *)
Fixpoint serves (w : World) (offset : JSON) (pages : list Page) : Prop :=
  match pages with
  | [] => True
  | p :: rest =>
      (exists r, upstream w (request_for offset) = Resolved r /\ is_page r p)
      /\ serves (w ++ [request_for offset]) (token_json (next p)) rest
  end.

(** The requests issued while the pages are fetched. *)
Fixpoint requests_for (offset : JSON) (pages : list Page) : list Request :=
  match pages with
  | [] => []
  | p :: rest => request_for offset :: requests_for (token_json (next p)) rest
  end.

(** The token in hand once the pages are fetched. *)
Fixpoint offset_after (offset : JSON) (pages : list Page) : JSON :=
  match pages with
  | [] => offset
  | p :: rest => offset_after (token_json (next p)) rest
  end.

(** Every request but the first of [w] carries the token that the
    response to the request before it held. *)
Definition token_passed (w : World) : Prop :=
  forall i req', nth_error w (S i) = Some req' ->
    exists req r fields token,
      nth_error w i = Some req /\
      upstream (firstn i w) req = Resolved r /\
      ok r = true /\ parsed r = Some (JObj fields) /\
      assoc "offset" fields = Some token /\ truthy token = true /\
      req' = request_for token.

(** The world ends with the request whose response held the truthy token
    [offset], or no request was made yet. *)
Definition chained_to (w : World) (offset : JSON) : Prop :=
  w = [] \/
  exists w0 req r fields,
    w = w0 ++ [req] /\ upstream w0 req = Resolved r /\
    ok r = true /\ parsed r = Some (JObj fields) /\
    assoc "offset" fields = Some offset /\ truthy offset = true.

End PageFetcher.

(** The result of a run, mapped. *)
Definition outcome_map {A B} (f : A -> B) (r : Outcome A * World)
  : Outcome B * World :=
  match r with
  | (Returns a, w) => (Returns (f a), w)
  | (Throws e, w) => (Throws e, w)
  | (OutOfFuel, w) => (OutOfFuel, w)
  end.

(** The body and the loop of [fetchAllRecords] over any page fetcher, the
    normal form of [fetchAllRecords] in both files ([fetchAllRecords_eq]
    below). *)
Definition page_step (engine : Engine) (fetchPage : JSON -> M PageData.t)
  (vars : list JSON * JSON) : M (list JSON * JSON) :=
  let (allRecords, offset) := vars in
  pageData <- fetchPage offset ;;
  allRecords <- push_spread engine allRecords (PageData.records pageData) ;;
  let offset := PageData.offset pageData in
  ret (allRecords, offset).

Definition paginate (engine : Engine) (fetchPage : JSON -> M PageData.t)
  (fuel : nat) (vars : list JSON * JSON) : M (list JSON * JSON) :=
  do_while (page_step engine fetchPage) (fun vars => truthy (snd vars)) fuel vars.

(* ------------------------------------------------------------------ *)
(** ** The two deployments side by side *)

Inductive Deployment := Serverless | Vercel.

Definition Env := string -> option string.

Definition buildAirtableURL (d : Deployment) (process_env : Env) : JSON -> string :=
  match d with
  | Serverless => ServerlessAirtable.buildAirtableURL process_env
  | Vercel => ApiAirtable.buildAirtableURL process_env
  end.

Definition fetchPage (d : Deployment) (engine : Engine) (upstream : Upstream)
  (process_env : Env) : JSON -> M PageData.t :=
  match d with
  | Serverless => ServerlessAirtable.fetchPage engine upstream process_env
  | Vercel => ApiAirtable.fetchPage engine upstream process_env
  end.

Definition fetchAllRecords (d : Deployment) (engine : Engine) (upstream : Upstream)
  (process_env : Env) : nat -> M (list JSON) :=
  match d with
  | Serverless => ServerlessAirtable.fetchAllRecords engine upstream process_env
  | Vercel => ApiAirtable.fetchAllRecords engine upstream process_env
  end.

Definition handler (d : Deployment) (engine : Engine) (upstream : Upstream)
  (process_env : Env) : nat -> Req -> Res -> M Res :=
  match d with
  | Serverless => ServerlessAirtable.handler engine upstream process_env
  | Vercel => ApiAirtable.handler engine upstream process_env
  end.

Definition setCORSHeaders (d : Deployment) : Res -> Res :=
  match d with
  | Serverless => ServerlessAirtable.setCORSHeaders
  | Vercel => ApiAirtable.setCORSHeaders
  end.

(** The collection identifier as it stands in the path of the URL. *)
Definition table_segment (d : Deployment) (process_env : Env) : string :=
  match d with
  | Serverless => encodeURIComponent ServerlessAirtable.TABLE_NAME
  | Vercel => ApiAirtable.AIRTABLE_TABLE_ID process_env
  end.

(** The collection identifier the success body reports. *)
Definition table_reported (d : Deployment) (process_env : Env) : string :=
  match d with
  | Serverless => ServerlessAirtable.TABLE_NAME
  | Vercel => ApiAirtable.AIRTABLE_TABLE_ID process_env
  end.

Definition endpoint (d : Deployment) (process_env : Env) : string :=
  "https://api.airtable.com/v0/" +++ template (process_env "AIRTABLE_BASE_ID")
  +++ "/" +++ table_segment d process_env.

(** The query configuration, the same in both files. *)
Definition PAGE_SIZE : N := ServerlessAirtable.PAGE_SIZE.
Definition FILTER_FORMULA : string := ServerlessAirtable.FILTER_FORMULA.
Definition SORT_FIELD : string := ServerlessAirtable.SORT_FIELD.
Definition SORT_DIRECTION : string := ServerlessAirtable.SORT_DIRECTION.

(** The query parameters of every request. *)
Definition fixed_params : list (string * string) :=
  [("filterByFormula", FILTER_FORMULA);
   ("sort[0][field]", SORT_FIELD);
   ("sort[0][direction]", SORT_DIRECTION);
   ("pageSize", string_of_N PAGE_SIZE)].

(** The argument of [buildAirtableURL] for an optional token. *)
Definition js_token (token : option string) : JSON :=
  match token with
  | Some t => JStr t
  | None => JNull
  end.

(** The request [fetchPage] hands to [fetch] for a token. *)
Definition page_request (d : Deployment) (process_env : Env) (offset : JSON)
  : Request :=
  {| url := buildAirtableURL d process_env offset;
     fetch_method := "GET";
     fetch_headers :=
       [("Authorization", "Bearer " +++ template (process_env "AIRTABLE_API_KEY"));
        ("Content-Type", "application/json")] |}.

(** The detail text of the error for a refused request. *)
Definition error_details (d : Deployment) (r : Response) : string :=
  match d with
  | Serverless => text r
  | Vercel =>
      match parsed r with
      | Some errorJson => JSON_stringify_2 errorJson
      | None => text r
      end
  end.

(** The value of a parameter in a parsed query. *)
Fixpoint lookup (k : string) (params : list (string * string)) : option string :=
  match params with
  | [] => None
  | (k', v) :: rest => if (k' =? k)%string then Some v else lookup k rest
  end.

(** The [offset] parameter a request is to carry for an optional token:
    the token when it is not empty. *)
Definition offset_param (token : option string) : option string :=
  match token with
  | Some t => if (t =? "")%string then None else Some t
  | None => None
  end.

(** The success body for a collection. *)
Definition success_body (d : Deployment) (process_env : Env)
  (allRecords : list JSON) : JSON :=
  JObj [("success", JBool true);
        ("records", JArr allRecords);
        ("totalRecords", JNum (string_of_nat (List.length allRecords)));
        ("table", JStr (table_reported d process_env));
        ("filter", JStr FILTER_FORMULA);
        ("sort", JObj [("field", JStr SORT_FIELD);
                       ("direction", JStr SORT_DIRECTION)])].

(** The rules that give a failure its status and category, first match
    first: the needles looked for in the error message, the status and the
    category. *)
Definition Rule : Type := list string * (N * string).

Definition matches (detail : string) (rule : Rule) : bool :=
  existsb (includes detail) (fst rule).

Definition classify (rules : list Rule) (fallback : N * string) (detail : string)
  : N * string :=
  match find (matches detail) rules with
  | Some rule => snd rule
  | None => fallback
  end.

Definition vercel_rules : list Rule :=
  [(["401"; "Unauthorized"], (401%N, "Authentication error"));
   (["403"; "Forbidden"], (403%N, "Permission denied"));
   (["404"; "Not Found"], (404%N, "Resource not found"));
   (["422"; "Unprocessable"], (422%N, "Invalid request"));
   (["429"; "Too Many Requests"], (429%N, "Rate limit exceeded"))].

Definition serverless_rules : list Rule :=
  [(["401"; "Unauthorized"], (401%N, "Failed to fetch Airtable records"));
   (["403"; "Forbidden"], (403%N, "Failed to fetch Airtable records"));
   (["404"; "Not Found"], (404%N, "Failed to fetch Airtable records"));
   (["422"; "Unprocessable"], (422%N, "Failed to fetch Airtable records"))].

Definition failure_class (d : Deployment) (detail : string) : N * string :=
  match d with
  | Serverless =>
      classify serverless_rules (500%N, "Failed to fetch Airtable records") detail
  | Vercel => classify vercel_rules (500%N, "Internal server error") detail
  end.

(** The properties added to the failure body when [NODE_ENV] is
    [development]. *)
Definition development_fields (d : Deployment) (process_env : Env) (e : JsError)
  : list (string * JSON) :=
  if strict_eq (process_env "NODE_ENV") "development" then
    match d with
    | Serverless => [("stack", JStr (stack e))]
    | Vercel =>
        [("stack", JStr (stack e))]
        ++ opt_field "baseId" (process_env "AIRTABLE_BASE_ID")
        ++ [("tableId", JStr (ApiAirtable.AIRTABLE_TABLE_ID process_env))]
    end
  else [].

Definition failure_body (d : Deployment) (process_env : Env) (e : JsError) : JSON :=
  JObj ([("success", JBool false);
         ("error", JStr (snd (failure_class d (message e))));
         ("message", JStr (message e))]
        ++ development_fields d process_env e).

(** The status the claim of the specification attributes to a detail: the
    five codes looked for as substrings, anything else 500. *)
Definition status_by_code (detail : string) : N :=
  if includes detail "401" then 401
  else if includes detail "403" then 403
  else if includes detail "404" then 404
  else if includes detail "422" then 422
  else if includes detail "429" then 429
  else 500.

(** The handler is past its guards: a GET with both credentials set. *)
Definition admitted (process_env : Env) (req : Req) : bool :=
  (method req =? "GET")%string
  && is_set (process_env "AIRTABLE_API_KEY")
  && is_set (process_env "AIRTABLE_BASE_ID").

(** A property of the JSON body of a response, if it has one. *)
Definition body_field (k : string) (res : Res) : option JSON :=
  match body res with
  | Json (JObj fields) => assoc k fields
  | _ => None
  end.

(* ------------------------------------------------------------------ *)
(** ** Sample runs *)

Module Samples.

Definition v8 : Engine :=
  {| stack_trace := fun name msg =>
       name +++ ": " +++ msg +++ newline +++ "    at <anonymous>";
     json_syntax_message := fun _ => "Unexpected end of JSON input";
     null_property_message := fun p =>
       "Cannot read properties of null (reading '" +++ p +++ "')";
     not_iterable_message := fun _ =>
       "Spread syntax requires ...iterable[Symbol.iterator] to be a function" |}.

Definition production : Env :=
  fun k =>
    if (k =? "AIRTABLE_API_KEY")%string then Some "patKEY"
    else if (k =? "AIRTABLE_BASE_ID")%string then Some "appBASE"
    else None.

Definition unconfigured : Env := fun _ => None.

(** An upstream that answers the k-th call with the k-th entry of a script
    and refuses connections afterwards. *)
Definition scripted (script : list FetchResult) : Upstream :=
  fun w _ =>
    nth (List.length w) script
      (Rejected {| name := "TypeError"; message := "fetch failed"; stack := "" |}).

Definition page_body (p : Page) : JSON :=
  JObj (("records", JArr (items p))
        :: match next p with
           | Some t => [("offset", JStr t)]
           | None => []
           end).

Definition page_response (p : Page) : Response :=
  {| status := 200; text := JSON_stringify_2 (page_body p);
     parsed := Some (page_body p) |}.

Definition r1 : JSON := JObj [("id", JStr "r1")].
Definition r2 : JSON := JObj [("id", JStr "r2")].
Definition r3 : JSON := JObj [("id", JStr "r3")].

Definition p1 : Page := {| items := [r1; r2]; next := Some "itr1/rec2" |}.
Definition p2 : Page := {| items := [r3]; next := None |}.
Definition empty_page : Page := {| items := []; next := None |}.
Definition p_empty_token : Page := {| items := [r3]; next := Some "" |}.

Definition two_pages : Upstream :=
  scripted [Resolved (page_response p1); Resolved (page_response p2)].

Definition unauthorized : Response :=
  {| status := 401; text := "Unauthorized"; parsed := None |}.

Definition rate_limited : Response :=
  {| status := 429; text := "slow down"; parsed := None |}.

Definition bad_scope : Response :=
  {| status := 400; text := "Unauthorized scope"; parsed := None |}.

Definition get : Req := {| method := "GET" |}.

End Samples.

(* ------------------------------------------------------------------ *)
(** ** Further notions, for the properties beyond the claims *)

(** The headers [setCORSHeaders] sets. *)
Definition cors_headers : list (string * string) :=
  [("Access-Control-Allow-Origin", "*");
   ("Access-Control-Allow-Methods", "GET, OPTIONS");
   ("Access-Control-Allow-Headers", "Content-Type, Authorization");
   ("Access-Control-Max-Age", "86400");
   ("Content-Type", "application/json")].

(** The statuses a handler can answer with. *)
Definition handler_statuses (d : Deployment) : list N :=
  match d with
  | Serverless => [200; 401; 403; 404; 405; 422; 500]%N
  | Vercel => [200; 401; 403; 404; 405; 422; 429; 500]%N
  end.

(** The values [ToBoolean] sends to false. *)
Definition falsy_values : list JSON := [JNull; JBool false; JNum "0"; JStr ""].

(** The page [fetchPage] returns when the body holds nothing to read. *)
Definition empty_PageData : PageData.t :=
  {| PageData.records := JArr [];
     PageData.offset := JNull;
     PageData.hasMore := false |}.

(** A value that the spread of [push] cannot iterate: neither an array nor a
    string. *)
Definition iterable (v : JSON) : bool :=
  match v with
  | JArr _ => true
  | JStr _ => true
  | _ => false
  end.

Module MoreSamples.

Import Samples.

(** An upstream that answers every call with the same page and token. *)
Definition always_more : Upstream := fun _ _ => Resolved (page_response p1).

Definition html_body : Response :=
  {| status := 200; text := "<html>"; parsed := None |}.

Definition array_body : Response :=
  {| status := 200; text := "[]"; parsed := Some (JArr []) |}.

Definition falsy_body : Response :=
  {| status := 200; text := "{}";
     parsed := Some (JObj [("records", JNull); ("offset", JNum "0")]) |}.

Definition object_records : Response :=
  {| status := 200; text := "{}";
     parsed := Some (JObj [("records", JObj [("r1", r1)])]) |}.


End MoreSamples.

(** A parsed body that is neither null nor an object: an array, a string, a
    number or a boolean. *)
Definition bare_value (data : JSON) : bool :=
  match data with
  | JNull => false
  | JObj _ => false
  | _ => true
  end.

(** The error [fetchPage] throws on a successful response it cannot read:
    the parser's error when the body is not JSON, the engine's error for
    reading [records] of [null] when the body is [null]. *)
Definition unreadable_error (engine : Engine) (r : Response) : JsError :=
  match parsed r with
  | None => new_SyntaxError engine (json_syntax_message engine (text r))
  | Some _ => new_TypeError engine (null_property_message engine "records")
  end.

(** An upstream on which every [fetch] is rejected with the same error. *)
Definition rejecting (e : JsError) : Upstream := fun _ _ => Rejected e.

(** The category a deployment reports for an upstream 401. *)
Definition unauthorized_category (d : Deployment) : string :=
  match d with
  | Serverless => "Failed to fetch Airtable records"
  | Vercel => "Authentication error"
  end.

(* ------------------------------------------------------------------ *)
(** ** [src/test-api.js]: the two URLs of the connection test

    The script fetches two URLs written out by hand and prints what comes
    back; only the URLs are embedded. *)

Module TestApi.
Section Program.

Variable process_env : string -> option string.

Definition AIRTABLE_BASE_ID : option string := process_env "AIRTABLE_BASE_ID".

Definition AIRTABLE_TABLE_ID : string :=
  if is_set (process_env "AIRTABLE_TABLE_ID")
  then template (process_env "AIRTABLE_TABLE_ID")
  else "tblDrUWfwkwMQM9yR".

Definition url1 : string :=
  "https://api.airtable.com/v0/" +++ template AIRTABLE_BASE_ID +++ "/"
  +++ AIRTABLE_TABLE_ID
  +++ "?filterByFormula=NOT%28%7BStatus%7D%3D%27Done%27%29&pageSize=50".

Definition url2 : string :=
  "https://api.airtable.com/v0/" +++ template AIRTABLE_BASE_ID +++ "/"
  +++ AIRTABLE_TABLE_ID
  +++ "?filterByFormula=NOT%28%7BStatus%7D%3D%27Done%27%29&sort%5B0%5D%5Bfield%5D=Name&sort%5B0%5D%5Bdirection%5D=asc&pageSize=50".

End Program.
End TestApi.

(* ------------------------------------------------------------------ *)
(** ** The local test script (first file of [src/unnamed/part_000])

    [runServerlessFunction] repeats the logic of the function against a mock
    request, always a GET, and a mock response object; what [json] is given
    is kept as the body of the response.  [Object.entries(...).forEach]
    throws exactly when [Object.keys] does and its callback only prints, so
    it is a third call of [Object_keys] here. *)

(** The length of a string in UTF-16 code units: one per code point, two for
    those encoded on four bytes. *)
Fixpoint utf16_length (s : string) : nat :=
  match s with
  | EmptyString => 0
  | String c rest =>
      (if is_continuation c then 0 else 1)
      + (if (240 <=? nat_of_ascii c)%nat then 1 else 0)
      + utf16_length rest
  end.

(** [Object.keys] of a value that is neither [undefined] nor [null]. *)
Definition keys_of (v : JSON) : list string :=
  match v with
  | JObj fields => map fst fields
  | JArr items => map string_of_nat (seq 0 (List.length items))
  | JStr s => map string_of_nat (seq 0 (utf16_length s))
  | _ => []
  end.

Module LocalTest.
Section Program.

Variable engine : Engine.
(** The message of the [TypeError] of [Object.keys] for [undefined] ([None])
    and for [null]. *)
Variable to_object_message : option JSON -> string.
Variable upstream : Upstream.
Variable process_env : string -> option string.

Definition mockReq : Req := {| method := "GET" |}.
Definition mockRes : Res := {| headers := []; statusCode := 200; body := NotSent |}.

Definition Object_keys (v : option JSON) : M (list string) :=
  match v with
  | None => throw (new_TypeError engine (to_object_message v))
  | Some JNull => throw (new_TypeError engine (to_object_message v))
  | Some x => ret (keys_of x)
  end.

Definition AIRTABLE_API_KEY : option string := process_env "AIRTABLE_API_KEY".
Definition AIRTABLE_BASE_ID : option string := process_env "AIRTABLE_BASE_ID".
Definition TABLE_NAME : string := "tblDrUWfwkwMQM9yR".
Definition PAGE_SIZE : N := 50.
Definition FILTER_FORMULA : string := "NOT({Status}='Done')".
Definition SORT_FIELD : string := "Name".
Definition SORT_DIRECTION : string := "asc".

Definition buildAirtableURL (offset : JSON) : string :=
  let url := "https://api.airtable.com/v0/" +++ template AIRTABLE_BASE_ID
             +++ "/" +++ encodeURIComponent TABLE_NAME in
  let params : list (string * string) := [] in
  let params := params ++ [("filterByFormula", FILTER_FORMULA)] in
  let params := params ++ [("sort[0][field]", SORT_FIELD)] in
  let params := params ++ [("sort[0][direction]", SORT_DIRECTION)] in
  let params := params ++ [("pageSize", string_of_N PAGE_SIZE)] in
  let params :=
    if truthy offset then params ++ [("offset", ToString offset)]
    else params in
  url +++ "?" +++ URLSearchParams_toString params.

Definition fetchPage (offset : JSON) : M PageData.t :=
  let url := buildAirtableURL offset in
  response <- fetch upstream
    {| url := url;
       fetch_method := "GET";
       fetch_headers :=
         [("Authorization", "Bearer " +++ template AIRTABLE_API_KEY);
          ("Content-Type", "application/json")] |} ;;
  if negb (ok response) then
    let errorText := text response in
    throw (new_Error engine
             ("Airtable API error (" +++ string_of_N (status response)
              +++ "): " +++ errorText))
  else
    data <- response_json engine response ;;
    data_records <- get_property engine data "records" ;;
    data_offset <- get_property engine data "offset" ;;
    data_offset' <- get_property engine data "offset" ;;
    ret {| PageData.records := or_else data_records (JArr []);
           PageData.offset := or_else data_offset JNull;
           PageData.hasMore := to_bool data_offset' |}.

Definition fetchAllRecords (fuel : nat) : M (list JSON) :=
  let allRecords : list JSON := [] in
  let offset : JSON := JNull in
  vars <- do_while
    (fun vars : list JSON * JSON =>
       let (allRecords, offset) := vars in
       pageData <- fetchPage offset ;;
       allRecords <- push_spread engine allRecords (PageData.records pageData) ;;
       let offset := PageData.offset pageData in
       ret (allRecords, offset))
    (fun vars => truthy (snd vars))
    fuel (allRecords, offset) ;;
  ret (fst vars).

(** The block that prints the sample record. *)
Definition show_sample (allRecords : list JSON) : M unit :=
  if (0 <? List.length allRecords)%nat then
    let firstRecord := nth 0 allRecords JNull in
    _ <- get_property engine firstRecord "id" ;;
    fields <- get_property engine firstRecord "fields" ;;
    _ <- Object_keys fields ;;
    fields <- get_property engine firstRecord "fields" ;;
    keys <- Object_keys fields ;;
    if (0 <? List.length keys)%nat then
      fields <- get_property engine firstRecord "fields" ;;
      _ <- Object_keys fields ;;
      ret tt
    else ret tt
  else ret tt.

Definition runServerlessFunction (fuel : nat) : M Res :=
  let mockRes := setHeader mockRes "Access-Control-Allow-Origin" "*" in
  let mockRes := setHeader mockRes "Access-Control-Allow-Methods" "GET, OPTIONS" in
  let mockRes := setHeader mockRes "Access-Control-Allow-Headers"
                   "Content-Type, Authorization" in
  let mockRes := setHeader mockRes "Content-Type" "application/json" in
  if (method mockReq =? "OPTIONS")%string then
    ret (res_end (res_status mockRes 200))
  else if negb (method mockReq =? "GET")%string then
    ret (res_json (res_status mockRes 405)
           (JObj [("error", JStr "Method not allowed");
                  ("message", JStr "Only GET requests are supported")]))
  else if negb (is_set AIRTABLE_API_KEY) then
    ret (res_json (res_status mockRes 500)
           (JObj [("error", JStr "Server configuration error");
                  ("message",
                   JStr "AIRTABLE_API_KEY environment variable is not set")]))
  else if negb (is_set AIRTABLE_BASE_ID) then
    ret (res_json (res_status mockRes 500)
           (JObj [("error", JStr "Server configuration error");
                  ("message",
                   JStr "AIRTABLE_BASE_ID environment variable is not set")]))
  else
    try_catch
      (allRecords <- fetchAllRecords fuel ;;
       _ <- show_sample allRecords ;;
       fieldSummary <-
         (if (0 <? List.length allRecords)%nat then
            fields <- get_property engine (nth 0 allRecords JNull) "fields" ;;
            availableFields <- Object_keys fields ;;
            ret (JObj [("availableFields", JArr (map JStr availableFields));
                       ("sampleRecord", nth 0 allRecords JNull)])
          else ret JNull) ;;
       ret (res_json (res_status mockRes 200)
              (JObj [("success", JBool true);
                     ("records", JArr allRecords);
                     ("totalRecords",
                      JNum (string_of_nat (List.length allRecords)));
                     ("table", JStr TABLE_NAME);
                     ("filter", JStr FILTER_FORMULA);
                     ("sort", JObj [("field", JStr SORT_FIELD);
                                    ("direction", JStr SORT_DIRECTION)]);
                     ("fieldSummary", fieldSummary)])))
      (fun error =>
         let statusCode := 500%N in
         let statusCode :=
           if includes (message error) "401" then 401%N
           else if includes (message error) "403" then 403%N
           else if includes (message error) "404" then 404%N
           else if includes (message error) "422" then 422%N
           else statusCode in
         ret (res_json (res_status mockRes statusCode)
                (JObj [("success", JBool false);
                       ("error", JStr "Failed to fetch Airtable records");
                       ("message", JStr (message error))]))).

End Program.
End LocalTest.

(** The request the script's [fetchPage] hands to [fetch]. *)
Definition script_request (process_env : Env) (offset : JSON) : Request :=
  {| url := LocalTest.buildAirtableURL process_env offset;
     fetch_method := "GET";
     fetch_headers :=
       [("Authorization", "Bearer " +++ template (process_env "AIRTABLE_API_KEY"));
        ("Content-Type", "application/json")] |}.

(** The response object of the script once the four headers are set. *)
Definition script_res : Res :=
  setHeader
    (setHeader
       (setHeader (setHeader LocalTest.mockRes "Access-Control-Allow-Origin" "*")
          "Access-Control-Allow-Methods" "GET, OPTIONS")
       "Access-Control-Allow-Headers" "Content-Type, Authorization")
    "Content-Type" "application/json".

(** The [fields] of a record, as [record.fields] reads it from a value that
    is not null. *)
Definition fields_of (record : JSON) : option JSON :=
  match record with
  | JObj props => assoc "fields" props
  | _ => None
  end.

(** The first record is one the script can summarize: not null, with a
    [fields] that is neither missing nor null. *)
Definition summarizable (record : JSON) : bool :=
  match record with
  | JNull => false
  | _ => match fields_of record with
         | None => false
         | Some JNull => false
         | Some _ => true
         end
  end.

(** The error the script runs into on a first record it cannot summarize. *)
Definition summary_error (engine : Engine) (to_object_message : option JSON -> string)
  (record : JSON) : JsError :=
  match record with
  | JNull => new_TypeError engine (null_property_message engine "id")
  | _ => new_TypeError engine (to_object_message (fields_of record))
  end.

(** The words the handlers look for in a message besides the codes. *)
Definition status_words : list string :=
  ["Unauthorized"; "Forbidden"; "Not Found"; "Unprocessable"].

(** The status the script gives to an error message: by the four codes. *)
Definition script_status (detail : string) : N :=
  if includes detail "401" then 401
  else if includes detail "403" then 403
  else if includes detail "404" then 404
  else if includes detail "422" then 422
  else 500.

Definition script_failure (e : JsError) : Res :=
  res_json (res_status script_res (script_status (message e)))
    (JObj [("success", JBool false);
           ("error", JStr "Failed to fetch Airtable records");
           ("message", JStr (message e))]).

(** The [fieldSummary] of the script's success body. *)
Definition field_summary (allRecords : list JSON) : JSON :=
  match allRecords with
  | [] => JNull
  | first :: _ =>
      JObj [("availableFields",
             JArr (map JStr match fields_of first with
                            | Some fields => keys_of fields
                            | None => []
                            end));
            ("sampleRecord", first)]
  end.

Definition script_success (allRecords : list JSON) : Res :=
  res_json (res_status script_res 200)
    (JObj [("success", JBool true);
           ("records", JArr allRecords);
           ("totalRecords", JNum (string_of_nat (List.length allRecords)));
           ("table", JStr "tblDrUWfwkwMQM9yR");
           ("filter", JStr "NOT({Status}='Done')");
           ("sort", JObj [("field", JStr "Name"); ("direction", JStr "asc")]);
           ("fieldSummary", field_summary allRecords)]).

Module ScriptSamples.

Import Samples.

Definition to_object : option JSON -> string :=
  fun _ => "Cannot convert undefined or null to object".

Definition named : JSON :=
  JObj [("id", JStr "rec1");
        ("fields", JObj [("Name", JStr "A"); ("Status", JStr "Todo")])].

Definition named_page : Page := {| items := [named; r2]; next := None |}.

Definition one_named_page : Upstream := scripted [Resolved (page_response named_page)].

End ScriptSamples.

(** A configuration with both credentials set, run in development. *)
Definition development : Env :=
  fun k =>
    if (k =? "NODE_ENV")%string then Some "development"
    else Samples.production k.

(* ------------------------------------------------------------------ *)
(** * Properties *)

(** ** URL encoding *)

(** The serializer agrees with the query string written by hand in
    [src/test-api.js]. *)
Example form_urlencode_filter :
  URLSearchParams_toString
    [("filterByFormula", "NOT({Status}='Done')"); ("sort[0][field]", "Name");
     ("sort[0][direction]", "asc"); ("pageSize", "50")]
  = "filterByFormula=NOT%28%7BStatus%7D%3D%27Done%27%29&sort%5B0%5D%5Bfield%5D=Name&sort%5B0%5D%5Bdirection%5D=asc&pageSize=50".
Proof. reflexivity. Qed.

Ltac each_byte c :=
  destruct c as [[] [] [] [] [] [] [] []].

Lemma append_assoc (a b c : string) : (a +++ b) +++ c = a +++ b +++ c.
Proof. induction a as [| x a IH]; simpl; [reflexivity | now rewrite IH]. Qed.

Lemma append_nil_r (a : string) : a +++ "" = a.
Proof. induction a as [| x a IH]; simpl; [reflexivity | now rewrite IH]. Qed.

Lemma form_urldecode_byte (c : ascii) (rest : string) :
  form_urldecode (form_urlencode_byte c +++ rest) = String c (form_urldecode rest).
Proof. each_byte c; reflexivity. Qed.

Lemma form_urldecode_encode (s : string) :
  form_urldecode (form_urlencode s) = s.
Proof.
  induction s as [| c s IH]; [reflexivity |].
  unfold form_urlencode in *; simpl.
  now rewrite form_urldecode_byte, IH.
Qed.

Lemma form_urlencode_byte_avoids (c : ascii) :
  avoids "&" (form_urlencode_byte c) = true
  /\ avoids "=" (form_urlencode_byte c) = true.
Proof. each_byte c; split; reflexivity. Qed.

Lemma avoids_append (x : ascii) (a b : string) :
  avoids x (a +++ b) = avoids x a && avoids x b.
Proof.
  induction a as [| c a IH]; simpl; [reflexivity |].
  now rewrite IH, andb_assoc.
Qed.

Lemma form_urlencode_avoids (s : string) :
  avoids "&" (form_urlencode s) = true /\ avoids "=" (form_urlencode s) = true.
Proof.
  induction s as [| c s [IHa IHe]]; [split; reflexivity |].
  unfold form_urlencode in *; simpl.
  rewrite !avoids_append, IHa, IHe.
  destruct (form_urlencode_byte_avoids c) as [-> ->]. now split.
Qed.

Lemma split_on_avoids (x : ascii) (a : string) :
  avoids x a = true -> split_on x a = [a].
Proof.
  induction a as [| c a IH]; simpl; [reflexivity |].
  intros H. apply andb_prop in H as [Hc Ha].
  apply negb_true_iff in Hc. rewrite Hc, (IH Ha). reflexivity.
Qed.

Lemma split_on_sep (x : ascii) (a b : string) :
  avoids x a = true ->
  split_on x (a +++ String x b) = a :: split_on x b.
Proof.
  induction a as [| c a IH]; simpl.
  - intros _. now rewrite Ascii.eqb_refl.
  - intros H. apply andb_prop in H as [Hc Ha].
    apply negb_true_iff in Hc. rewrite Hc, (IH Ha). reflexivity.
Qed.

Lemma cut_at_sep (x : ascii) (a b : string) :
  avoids x a = true -> cut_at x (a +++ String x b) = (a, b).
Proof.
  induction a as [| c a IH]; simpl.
  - intros _. now rewrite Ascii.eqb_refl.
  - intros H. apply andb_prop in H as [Hc Ha].
    apply negb_true_iff in Hc. rewrite Hc, (IH Ha). reflexivity.
Qed.

Lemma serialize_pair_avoids (p : string * string) :
  avoids "&" (serialize_pair p) = true.
Proof.
  unfold serialize_pair. rewrite !avoids_append.
  destruct (form_urlencode_avoids (fst p)) as [-> _].
  destruct (form_urlencode_avoids (snd p)) as [-> _]. reflexivity.
Qed.

Lemma serialize_pair_nonempty (p : string * string) :
  (serialize_pair p =? "")%string = false.
Proof.
  unfold serialize_pair.
  destruct (form_urlencode (fst p)); reflexivity.
Qed.

Lemma parse_pair (p : string * string) :
  (let (k, v) := cut_at "=" (serialize_pair p) in
   (form_urldecode k, form_urldecode v)) = p.
Proof.
  unfold serialize_pair. simpl.
  rewrite cut_at_sep by apply form_urlencode_avoids.
  rewrite !form_urldecode_encode. now destruct p.
Qed.

(** Reading back what [URLSearchParams] serialized gives the parameters that
    were appended, names and values byte for byte. *)
Lemma parse_urlencoded_toString (params : list (string * string)) :
  parse_urlencoded (URLSearchParams_toString params) = params.
Proof.
  unfold parse_urlencoded, URLSearchParams_toString.
  change (fun p : string * string =>
            form_urlencode (fst p) +++ "=" +++ form_urlencode (snd p))
    with serialize_pair.
  induction params as [| p rest IH]; [reflexivity |].
  destruct rest as [| q rest].
  - simpl. rewrite split_on_avoids by apply serialize_pair_avoids.
    simpl. rewrite serialize_pair_nonempty. simpl.
    now rewrite parse_pair.
  - change (join_with "&" (map serialize_pair (p :: q :: rest)))
      with (serialize_pair p +++ String "&" (join_with "&" (map serialize_pair (q :: rest)))).
    rewrite split_on_sep by apply serialize_pair_avoids.
    cbn [filter map]. rewrite serialize_pair_nonempty. cbn [negb map].
    rewrite parse_pair. f_equal. exact IH.
Qed.

(** ** Substrings *)

Lemma includes_eq (s sub : string) :
  includes s sub
  = prefix sub s || match s with
                    | EmptyString => false
                    | String _ rest => includes rest sub
                    end.
Proof. now destruct s. Qed.

Lemma prefix_append (sub b : string) : prefix sub (sub +++ b) = true.
Proof.
  induction sub as [| c sub IH]; simpl; [now destruct b |].
  destruct (ascii_dec c c) as [_ | Hneq]; [exact IH | now elim Hneq].
Qed.

Lemma prefix_inv (sub s : string) :
  prefix sub s = true -> exists b, s = sub +++ b.
Proof.
  revert s. induction sub as [| c sub IH]; intros s.
  - intros _. now exists s.
  - destruct s as [| c' s]; simpl; [easy |].
    destruct (ascii_dec c c') as [<- | _]; [| easy].
    intros H. destruct (IH _ H) as [b ->]. now exists b.
Qed.

(** [includes s sub] holds exactly when [sub] occurs somewhere in [s]. *)
Lemma includes_spec (s sub : string) :
  includes s sub = true <-> exists a b, s = a +++ sub +++ b.
Proof.
  split.
  - induction s as [| c s IH]; rewrite includes_eq; intros H;
      apply orb_prop in H as [H | H].
    + destruct (prefix_inv _ _ H) as [b Hb]. now exists "", b.
    + discriminate.
    + destruct (prefix_inv _ _ H) as [b Hb]. now exists "", b.
    + destruct (IH H) as (a & b & ->). now exists (String c a), b.
  - intros (a & b & ->). induction a as [| c a IH]; rewrite includes_eq.
    + simpl. now rewrite prefix_append.
    + simpl. rewrite IH. apply orb_true_r.
Qed.

(** ** The pagination loop *)

Lemma is_set_token_json (token : option string) :
  truthy (token_json token) = is_set token.
Proof.
  destruct token as [t |]; simpl; [| reflexivity].
  destruct (t =? "")%string eqn:E; simpl; [reflexivity | now rewrite E].
Qed.

Lemma or_else_reads_as (v : option JSON) (token : option string) :
  reads_as v token -> or_else v JNull = token_json token.
Proof.
  destruct token as [t |]; simpl.
  - intros ->. simpl. now destruct (t =? "")%string.
  - now intros [-> | ->].
Qed.

Lemma to_bool_reads_as (v : option JSON) (token : option string) :
  reads_as v token -> to_bool v = is_set token.
Proof.
  destruct token as [t |]; simpl.
  - now intros ->.
  - now intros [-> | ->].
Qed.

Lemma try_catch_rethrow {A} (m : M A) (w : World) :
  try_catch m (fun error => throw error) w = m w.
Proof. unfold try_catch, throw. now destruct (m w) as [[a | e |] w']. Qed.

Lemma do_while_ext {S} (body body' : S -> M S) (cond : S -> bool) :
  (forall s w, body s w = body' s w) ->
  forall fuel s w, do_while body cond fuel s w = do_while body' cond fuel s w.
Proof.
  intros Hbody fuel. induction fuel as [| fuel IH]; intros s w; simpl.
  - reflexivity.
  - unfold bind. rewrite Hbody.
    destruct (body' s w) as [[s' | e |] w']; try reflexivity.
    destruct (cond s'); [apply IH | reflexivity].
Qed.

Lemma paginate_S (engine : Engine) (fetchPage : JSON -> M PageData.t)
      (fuel : nat) (vars : list JSON * JSON) (w : World) :
  paginate engine fetchPage (S fuel) vars w
  = match page_step engine fetchPage vars w with
    | (Returns vars', w') =>
        if truthy (snd vars') then paginate engine fetchPage fuel vars' w'
        else (Returns vars', w')
    | (Throws e, w') => (Throws e, w')
    | (OutOfFuel, w') => (OutOfFuel, w')
    end.
Proof.
  unfold paginate. cbn [do_while]. unfold bind.
  destruct (page_step engine fetchPage vars w) as [[vars' | e |] w']; try reflexivity.
  now destruct (truthy (snd vars')).
Qed.

Lemma chain_snoc (pages : list Page) (p : Page) :
  linked pages = true -> is_set (next p) = false -> chain (pages ++ [p]) = true.
Proof.
  intros Hlinked Hp. induction pages as [| q rest IH]; cbn [app].
  - simpl. now rewrite Hp.
  - simpl in Hlinked. apply andb_prop in Hlinked as [Hq Hrest].
    specialize (IH Hrest).
    destruct (rest ++ [p]) as [| x l] eqn:E; [destruct rest; discriminate |].
    change (chain (q :: x :: l)) with (is_set (next q) && chain (x :: l)).
    now rewrite Hq.
Qed.

Lemma chain_nonempty (pages : list Page) :
  chain pages = true -> 1 <= List.length pages.
Proof. destruct pages; [discriminate | simpl; lia]. Qed.

Lemma requests_for_length (request_for : JSON -> Request) (pages : list Page) :
  forall offset, List.length (requests_for request_for offset pages) = List.length pages.
Proof. induction pages as [| p rest IH]; intros offset; simpl; [| rewrite IH]; reflexivity. Qed.

Section PaginationFacts.

Variable engine : Engine.
Variable upstream : Upstream.
Variable request_for : JSON -> Request.
Variable details : Response -> string.
Variable fetchPage : JSON -> M PageData.t.

Hypothesis fetchPage_eq : forall offset w,
  fetchPage offset w = page_fetch engine upstream request_for details offset w.

Lemma read_page_is_page (r : Response) (p : Page) :
  is_page r p ->
  read_page engine details r = Returns {| PageData.records := JArr (items p);
                           PageData.offset := token_json (next p);
                           PageData.hasMore := is_set (next p) |}.
Proof.
  intros (Hok & fields & Hparsed & Hrecords & Hoffset).
  unfold read_page. rewrite Hok, Hparsed, Hrecords.
  now rewrite (or_else_reads_as _ _ Hoffset), (to_bool_reads_as _ _ Hoffset).
Qed.

Lemma step_page (w : World) (allRecords : list JSON) (offset : JSON)
      (r : Response) (p : Page) :
  upstream w (request_for offset) = Resolved r -> is_page r p ->
  page_step engine fetchPage (allRecords, offset) w
  = (Returns (allRecords ++ items p, token_json (next p)),
     w ++ [request_for offset]).
Proof.
  intros Hup Hpage. unfold page_step, bind.
  rewrite fetchPage_eq. unfold page_fetch.
  now rewrite Hup, (read_page_is_page _ _ Hpage).
Qed.

(** Pages that all announce a successor are consumed one per iteration,
    and the loop goes on. *)
Lemma loop_linked (pages : list Page) :
  linked pages = true ->
  forall w allRecords offset fuel,
    serves upstream request_for w offset pages ->
    paginate engine fetchPage (List.length pages + fuel) (allRecords, offset) w
    = paginate engine fetchPage fuel (allRecords ++ List.concat (map items pages),
                 offset_after offset pages)
        (w ++ requests_for request_for offset pages).
Proof.
  induction pages as [| p rest IH]; intros Hlinked w allRecords offset fuel Hserves.
  - simpl. now rewrite !app_nil_r.
  - simpl in Hlinked. apply andb_prop in Hlinked as [Hp Hrest].
    destruct Hserves as [(r & Hup & Hpage) Hserves].
    cbn [List.length Nat.add]. rewrite paginate_S, (step_page _ _ _ _ _ Hup Hpage).
    cbn [snd]. rewrite is_set_token_json, Hp, (IH Hrest _ _ _ _ Hserves).
    cbn [map concat requests_for offset_after].
    now rewrite <- !app_assoc.
Qed.

(** A chain of pages is fetched whole: the records in order, one request
    per page, and the loop ends at the page without a token. *)
Lemma loop_chain (pages : list Page) :
  chain pages = true ->
  forall w allRecords offset fuel,
    serves upstream request_for w offset pages ->
    List.length pages <= fuel ->
    paginate engine fetchPage fuel (allRecords, offset) w
    = (Returns (allRecords ++ List.concat (map items pages), JNull),
       w ++ requests_for request_for offset pages).
Proof.
  induction pages as [| p rest IH]; intros Hchain w allRecords offset fuel Hserves Hfuel.
  - discriminate.
  - destruct Hserves as [(r & Hup & Hpage) Hserves].
    destruct fuel as [| fuel]; [simpl in Hfuel; lia |].
    rewrite paginate_S, (step_page _ _ _ _ _ Hup Hpage). cbn [snd].
    rewrite is_set_token_json.
    destruct rest as [| q rest].
    + simpl in Hchain. apply negb_true_iff in Hchain. rewrite Hchain.
      pose proof (is_set_token_json (next p)) as Htok. rewrite Hchain in Htok.
      simpl. rewrite app_nil_r. unfold ret. repeat f_equal.
      destruct (next p) as [t |]; simpl in *; [| reflexivity].
      destruct (t =? "")%string; [reflexivity | discriminate].
    + change (chain (p :: q :: rest)) with (is_set (next p) && chain (q :: rest)) in Hchain.
      apply andb_prop in Hchain as [Hp Hrest]. rewrite Hp.
      rewrite (IH Hrest _ _ _ _ Hserves) by (simpl in *; lia).
      cbn [map concat requests_for]. now rewrite <- !app_assoc.
Qed.

(** A page fetch that throws after a linked prefix ends the loop with what
    it threw. *)
Lemma loop_throws (pages : list Page) (e : JsError) (w'' : World) :
  linked pages = true ->
  forall w allRecords offset fuel,
    serves upstream request_for w offset pages ->
    fetchPage (offset_after offset pages) (w ++ requests_for request_for offset pages)
    = (Throws e, w'') ->
    List.length pages < fuel ->
    paginate engine fetchPage fuel (allRecords, offset) w = (Throws e, w'').
Proof.
  intros Hlinked w allRecords offset fuel Hserves Hfetch Hfuel.
  replace fuel with (List.length pages + S (fuel - S (List.length pages))) by lia.
  rewrite (loop_linked _ Hlinked _ _ _ _ Hserves), paginate_S.
  unfold page_step, bind. now rewrite Hfetch.
Qed.

(** With less fuel than the chain has pages the loop is still running. *)
Lemma loop_chain_short (pages : list Page) :
  chain pages = true ->
  forall w allRecords offset fuel,
    serves upstream request_for w offset pages ->
    fuel < List.length pages ->
    fst (paginate engine fetchPage fuel (allRecords, offset) w) = OutOfFuel.
Proof.
  induction pages as [| p rest IH]; intros Hchain w allRecords offset fuel Hserves Hfuel.
  - discriminate.
  - destruct fuel as [| fuel]; [reflexivity |].
    destruct Hserves as [(r & Hup & Hpage) Hserves].
    rewrite paginate_S, (step_page _ _ _ _ _ Hup Hpage). cbn [snd].
    rewrite is_set_token_json.
    destruct rest as [| q rest]; [simpl in Hfuel; lia |].
    change (chain (p :: q :: rest)) with (is_set (next p) && chain (q :: rest)) in Hchain.
    apply andb_prop in Hchain as [Hp Hrest]. rewrite Hp.
    apply (IH Hrest); [exact Hserves | simpl in *; lia].
Qed.

Lemma or_else_truthy (v : option JSON) :
  truthy (or_else v JNull) = true -> v = Some (or_else v JNull).
Proof.
  destruct v as [x |]; simpl; [| discriminate].
  destruct (truthy x) eqn:E; [reflexivity | discriminate].
Qed.

Lemma step_inv (w w' : World) (allRecords : list JSON) (offset : JSON)
      (o : Outcome (list JSON * JSON)) :
  page_step engine fetchPage (allRecords, offset) w = (o, w') ->
  w' = w ++ [request_for offset] /\
  forall allRecords' offset',
    o = Returns (allRecords', offset') -> truthy offset' = true ->
    exists r fields,
      upstream w (request_for offset) = Resolved r /\ ok r = true /\
      parsed r = Some (JObj fields) /\ assoc "offset" fields = Some offset'.
Proof.
  unfold page_step, bind. rewrite fetchPage_eq. unfold page_fetch.
  destruct (upstream w (request_for offset)) as [e | r].
  - intros [= <- <-]. split; [reflexivity | discriminate].
  - unfold read_page. destruct (ok r) eqn:Hok.
    2: { intros [= <- <-]. split; [reflexivity | discriminate]. }
    destruct (parsed r) as [data |] eqn:Hparsed.
    2: { intros [= <- <-]. split; [reflexivity | discriminate]. }
    destruct data as [| b | repr | s | l | fields];
      try (cbn; intros [= <- <-]; split; [reflexivity |];
           intros ? ? [= _ <-]; discriminate).
    cbn [PageData.records PageData.offset].
    destruct (push_spread engine allRecords
                (or_else (assoc "records" fields) (JArr []))
                (w ++ [request_for offset])) as [[all' | e |] w''] eqn:Hpush.
    + assert (w'' = w ++ [request_for offset]) as ->.
      { revert Hpush. unfold push_spread, ret, throw.
        destruct (or_else (assoc "records" fields) (JArr [])); now intros [= _ <-]. }
      unfold ret. intros [= <- <-]. split; [reflexivity |].
      intros ? ? [= _ <-] Htruthy. exists r, fields.
      repeat split; try assumption. now apply or_else_truthy.
    + assert (w'' = w ++ [request_for offset]) as ->.
      { revert Hpush. unfold push_spread, ret, throw.
        destruct (or_else (assoc "records" fields) (JArr [])); now intros [= _ <-]. }
      intros [= <- <-]. split; [reflexivity | discriminate].
    + revert Hpush. unfold push_spread, ret, throw.
      destruct (or_else (assoc "records" fields) (JArr [])); discriminate.
Qed.

(** The loop only ever adds requests to the log. *)
Lemma loop_world_grows (fuel : nat) :
  forall allRecords offset w o w',
    paginate engine fetchPage fuel (allRecords, offset) w = (o, w') ->
    exists more, w' = w ++ more.
Proof.
  induction fuel as [| fuel IH]; intros allRecords offset w o w'.
  - intros [= _ <-]. exists []. now rewrite app_nil_r.
  - rewrite paginate_S.
    destruct (page_step engine fetchPage (allRecords, offset) w)
      as [o1 w1] eqn:Hstep.
    destruct (step_inv _ _ _ _ _ Hstep) as [-> _].
    destruct o1 as [[allRecords' offset'] | e |];
      try (intros [= _ <-]; now exists [request_for offset]).
    cbn [snd]. destruct (truthy offset');
      [| intros [= _ <-]; now exists [request_for offset]].
    intros Hrun. destruct (IH _ _ _ _ _ Hrun) as [more ->].
    exists (request_for offset :: more). now rewrite <- app_assoc.
Qed.

(** The first iteration issues the request for the token in hand. *)
Lemma loop_first_request (fuel : nat) (allRecords : list JSON) (offset : JSON)
      (w : World) :
  exists more,
    snd (paginate engine fetchPage (S fuel) (allRecords, offset) w)
    = w ++ request_for offset :: more.
Proof.
  rewrite paginate_S.
  destruct (page_step engine fetchPage (allRecords, offset) w) as [o1 w1] eqn:Hstep.
  destruct (step_inv _ _ _ _ _ Hstep) as [-> _].
  destruct o1 as [[allRecords' offset'] | e |]; try now exists [].
  cbn [snd]. destruct (truthy offset'); [| now exists []].
  destruct (paginate engine fetchPage fuel (allRecords', offset')
              (w ++ [request_for offset])) as [o w'] eqn:Hrun.
  destruct (loop_world_grows _ _ _ _ _ _ Hrun) as [more ->].
  exists more. cbn [snd]. now rewrite <- app_assoc.
Qed.

Lemma token_passed_nil : token_passed upstream request_for [].
Proof. intros i req' H. now destruct i. Qed.

Lemma token_passed_snoc (w : World) (offset : JSON) :
  token_passed upstream request_for w ->
  chained_to upstream w offset ->
  token_passed upstream request_for (w ++ [request_for offset]).
Proof.
  intros Hw Hchained i req' Hnth.
  destruct (Nat.lt_ge_cases (S i) (List.length w)) as [Hlt | Hge].
  - rewrite nth_error_app1 in Hnth by exact Hlt.
    destruct (Hw i req' Hnth) as (req & r & fields & token & Hi & Hup & Hrest).
    exists req, r, fields, token. repeat split; try apply Hrest.
    + rewrite nth_error_app1 by lia. exact Hi.
    + rewrite firstn_app. replace (i - List.length w) with 0 by lia.
      simpl. now rewrite app_nil_r.
  - assert (S i = List.length w) as Hlen.
    { apply Nat.le_antisymm; [| exact Hge].
      assert (S i < List.length (w ++ [request_for offset])) as H
          by (apply nth_error_Some; congruence).
      rewrite length_app in H. simpl in H. lia. }
    rewrite nth_error_app2 in Hnth by lia.
    replace (S i - List.length w) with 0 in Hnth by lia.
    injection Hnth as <-.
    destruct Hchained as [-> | (w0 & req & r & fields & -> & Hup & Hok & Hparsed & Hoff & Htruthy)];
      [discriminate |].
    rewrite length_app in Hlen. simpl in Hlen.
    assert (i = List.length w0) as -> by lia.
    exists req, r, fields, offset. repeat split; try assumption.
    + rewrite <- app_assoc. now rewrite nth_error_app2, Nat.sub_diag by lia.
    + rewrite <- app_assoc, firstn_app, Nat.sub_diag, firstn_all. simpl.
      now rewrite app_nil_r.
Qed.

(** Throughout a run of the loop, each request carries the token of the
    response before it. *)
Lemma loop_token_passed (fuel : nat) :
  forall allRecords offset w o w',
    token_passed upstream request_for w ->
    chained_to upstream w offset ->
    paginate engine fetchPage fuel (allRecords, offset) w = (o, w') ->
    token_passed upstream request_for w'.
Proof.
  induction fuel as [| fuel IH]; intros allRecords offset w o w' Hw Hchained.
  - now intros [= _ <-].
  - rewrite paginate_S.
    destruct (page_step engine fetchPage (allRecords, offset) w)
      as [o1 w1] eqn:Hstep.
    destruct (step_inv _ _ _ _ _ Hstep) as [-> Hnext].
    pose proof (token_passed_snoc _ _ Hw Hchained) as Hw1.
    destruct o1 as [[allRecords' offset'] | e |]; try now intros [= _ <-].
    cbn [snd]. destruct (truthy offset') eqn:Htruthy; [| now intros [= _ <-]].
    apply IH; [exact Hw1 |].
    destruct (Hnext _ _ eq_refl Htruthy) as (r & fields & Hup & Hok & Hparsed & Hoff).
    right. exists w, (request_for offset), r, fields. now repeat split.
Qed.

End PaginationFacts.

(** ** The two deployments *)

Ltac page_fetch_cases upstream w :=
  let e := fresh "e" in
  let r := fresh "r" in
  match goal with
  | |- context [upstream w ?req] =>
      destruct (upstream w req) as [e | r]; [reflexivity |]
  end;
  unfold read_page, api_error, response_json, get_property, throw, ret;
  destruct (ok r); cbn [negb]; [| reflexivity];
  destruct (parsed r) as [[] |]; reflexivity.

Lemma fetchPage_eq (d : Deployment) (engine : Engine) (upstream : Upstream)
      (process_env : Env) (offset : JSON) (w : World) :
  fetchPage d engine upstream process_env offset w
  = page_fetch engine upstream (page_request d process_env) (error_details d)
      offset w.
Proof.
  destruct d; unfold fetchPage, ServerlessAirtable.fetchPage, ApiAirtable.fetchPage,
    page_fetch, bind, fetch, page_request, buildAirtableURL,
    ServerlessAirtable.AIRTABLE_API_KEY, ApiAirtable.AIRTABLE_API_KEY;
  cbn [error_details]; page_fetch_cases upstream w.
Qed.

Lemma fetchAllRecords_eq (d : Deployment) (engine : Engine) (upstream : Upstream)
      (process_env : Env) (fuel : nat) (w : World) :
  fetchAllRecords d engine upstream process_env fuel w
  = outcome_map fst
      (paginate engine (fetchPage d engine upstream process_env) fuel
         ([], JNull) w).
Proof.
  destruct d; unfold fetchAllRecords, ServerlessAirtable.fetchAllRecords,
    ApiAirtable.fetchAllRecords, outcome_map, bind, paginate, fetchPage.
  - match goal with
    | |- context [do_while ?b ?c fuel ?s w] =>
        change (do_while b c fuel s w)
          with (do_while (page_step engine
                            (ServerlessAirtable.fetchPage engine upstream process_env))
                  c fuel s w)
    end.
    now destruct (do_while _ _ fuel _ w) as [[vars | e |] w'].
  - rewrite (do_while_ext _
               (page_step engine (ApiAirtable.fetchPage engine upstream process_env))).
    + now destruct (do_while _ _ fuel _ w) as [[vars | e |] w'].
    + intros [allRecords offset] w0. now rewrite try_catch_rethrow.
Qed.

Lemma AIRTABLE_TABLE_ID_set (process_env : Env) :
  (ApiAirtable.AIRTABLE_TABLE_ID process_env =? "")%string = false.
Proof.
  unfold ApiAirtable.AIRTABLE_TABLE_ID, is_set, template.
  destruct (process_env "AIRTABLE_TABLE_ID") as [s |]; [| reflexivity].
  destruct (s =? "")%string eqn:E; [reflexivity | exact E].
Qed.

Lemma failure_class_serverless (detail : string) :
  failure_class Serverless detail
  = (if includes detail "401" || includes detail "Unauthorized" then 401%N
     else if includes detail "403" || includes detail "Forbidden" then 403%N
     else if includes detail "404" || includes detail "Not Found" then 404%N
     else if includes detail "422" || includes detail "Unprocessable" then 422%N
     else 500%N,
     "Failed to fetch Airtable records").
Proof.
  unfold failure_class, classify, serverless_rules, matches.
  cbn [find existsb fst snd]. rewrite !orb_false_r.
  repeat match goal with
         | |- context [if ?a || ?b then _ else _] => destruct (a || b); [reflexivity |]
         end.
  reflexivity.
Qed.

Lemma failure_class_vercel (detail : string) :
  failure_class Vercel detail
  = (if includes detail "401" || includes detail "Unauthorized"
     then (401%N, "Authentication error")
     else if includes detail "403" || includes detail "Forbidden"
     then (403%N, "Permission denied")
     else if includes detail "404" || includes detail "Not Found"
     then (404%N, "Resource not found")
     else if includes detail "422" || includes detail "Unprocessable"
     then (422%N, "Invalid request")
     else if includes detail "429" || includes detail "Too Many Requests"
     then (429%N, "Rate limit exceeded")
     else (500%N, "Internal server error")).
Proof.
  unfold failure_class, classify, vercel_rules, matches.
  cbn [find existsb fst snd]. rewrite !orb_false_r.
  repeat match goal with
         | |- context [if ?a || ?b then _ else _] => destruct (a || b); [reflexivity |]
         end.
  reflexivity.
Qed.

(** Past its guards, the handler answers with the collection or with the
    failure body of the error that [fetchAllRecords] threw. *)
Lemma handler_admitted (d : Deployment) (engine : Engine) (upstream : Upstream)
      (process_env : Env) (fuel : nat) (req : Req) (res : Res) (w : World) :
  admitted process_env req = true ->
  handler d engine upstream process_env fuel req res w
  = match fetchAllRecords d engine upstream process_env fuel w with
    | (Returns allRecords, w') =>
        (Returns (res_json (res_status (setCORSHeaders d res) 200)
                    (success_body d process_env allRecords)), w')
    | (Throws e, w') =>
        (Returns (res_json (res_status (setCORSHeaders d res)
                              (fst (failure_class d (message e))))
                    (failure_body d process_env e)), w')
    | (OutOfFuel, w') => (OutOfFuel, w')
    end.
Proof.
  unfold admitted. intros H.
  apply andb_prop in H as [H Hbase]. apply andb_prop in H as [Hget Hkey].
  apply String.eqb_eq in Hget.
  destruct d; unfold handler, fetchAllRecords, setCORSHeaders, failure_body,
    development_fields.
  - unfold ServerlessAirtable.handler, ServerlessAirtable.AIRTABLE_API_KEY,
      ServerlessAirtable.AIRTABLE_BASE_ID.
    rewrite Hget, Hkey, Hbase. cbn [String.eqb Ascii.eqb Bool.eqb negb].
    unfold try_catch, bind.
    destruct (ServerlessAirtable.fetchAllRecords engine upstream process_env fuel w)
      as [[allRecords | e |] w']; try reflexivity.
    rewrite failure_class_serverless. unfold ret. cbn [fst snd].
    reflexivity.
  - unfold ApiAirtable.handler, ApiAirtable.AIRTABLE_API_KEY,
      ApiAirtable.AIRTABLE_BASE_ID.
    rewrite Hget, Hkey, Hbase, AIRTABLE_TABLE_ID_set.
    cbn [String.eqb Ascii.eqb Bool.eqb negb].
    unfold try_catch, bind.
    destruct (ApiAirtable.fetchAllRecords engine upstream process_env fuel w)
      as [[allRecords | e |] w']; try reflexivity.
    rewrite failure_class_vercel. unfold ret.
    repeat match goal with
           | |- context [if ?a || ?b then _ else _] => destruct (a || b); [reflexivity |]
           end.
    reflexivity.
Qed.

Lemma buildAirtableURL_eq (d : Deployment) (process_env : Env) (offset : JSON) :
  buildAirtableURL d process_env offset
  = endpoint d process_env +++ "?"
    +++ URLSearchParams_toString
          (fixed_params
           ++ (if truthy offset then [("offset", ToString offset)] else [])).
Proof.
  destruct d; unfold buildAirtableURL, ServerlessAirtable.buildAirtableURL,
    ApiAirtable.buildAirtableURL, endpoint, table_segment;
  destruct (truthy offset); cbn [app]; rewrite !append_assoc; reflexivity.
Qed.

(** A chain of pages is fetched whole, one request per page. *)
Lemma fetchAllRecords_chain (d : Deployment) (engine : Engine) (upstream : Upstream)
      (process_env : Env) (pages : list Page) (fuel : nat) :
  chain pages = true ->
  serves upstream (page_request d process_env) [] JNull pages ->
  List.length pages <= fuel ->
  fetchAllRecords d engine upstream process_env fuel []
  = (Returns (List.concat (map items pages)),
     requests_for (page_request d process_env) JNull pages).
Proof.
  intros Hchain Hserves Hfuel. rewrite fetchAllRecords_eq.
  now rewrite (loop_chain engine upstream _ _ _ (fetchPage_eq d engine upstream process_env)
                 pages Hchain [] [] JNull fuel Hserves Hfuel).
Qed.

(** A page fetch that throws after a linked prefix makes [fetchAllRecords]
    throw the same error, with no request after that one. *)
Lemma fetchAllRecords_throws (d : Deployment) (engine : Engine) (upstream : Upstream)
      (process_env : Env) (pages : list Page) (e : JsError) (w' : World) (fuel : nat) :
  linked pages = true ->
  serves upstream (page_request d process_env) [] JNull pages ->
  fetchPage d engine upstream process_env (offset_after JNull pages)
    (requests_for (page_request d process_env) JNull pages) = (Throws e, w') ->
  List.length pages < fuel ->
  fetchAllRecords d engine upstream process_env fuel [] = (Throws e, w').
Proof.
  intros Hlinked Hserves Hfetch Hfuel. rewrite fetchAllRecords_eq.
  now rewrite (loop_throws engine upstream _ _ _ (fetchPage_eq d engine upstream process_env)
                 pages e w' Hlinked [] [] JNull fuel Hserves Hfetch Hfuel).
Qed.

Lemma fetchAllRecords_token_passed (d : Deployment) (engine : Engine)
      (upstream : Upstream) (process_env : Env) (fuel : nat) :
  token_passed upstream (page_request d process_env)
    (snd (fetchAllRecords d engine upstream process_env fuel [])).
Proof.
  rewrite fetchAllRecords_eq.
  destruct (paginate engine (fetchPage d engine upstream process_env) fuel ([], JNull) [])
    as [o w'] eqn:Hrun.
  assert (token_passed upstream (page_request d process_env) w') as Hw'.
  { eapply (loop_token_passed engine upstream _ _ _
              (fetchPage_eq d engine upstream process_env)); [| | exact Hrun].
    - apply token_passed_nil.
    - now left. }
  now destruct o.
Qed.

Lemma constants_agree :
  ApiAirtable.PAGE_SIZE = PAGE_SIZE
  /\ ApiAirtable.FILTER_FORMULA = FILTER_FORMULA
  /\ ApiAirtable.SORT_FIELD = SORT_FIELD
  /\ ApiAirtable.SORT_DIRECTION = SORT_DIRECTION.
Proof. repeat split. Qed.

Lemma form_urlencode_safe_byte (c : ascii) :
  form_safe c = true -> form_urlencode_byte c = String c "".
Proof. each_byte c; intros H; try reflexivity; discriminate H. Qed.

Lemma form_urlencode_safe (s : string) :
  forallb form_safe (list_ascii_of_string s) = true -> form_urlencode s = s.
Proof.
  induction s as [| c s IH]; [reflexivity |].
  simpl. intros H. apply andb_prop in H as [Hc Hs].
  unfold form_urlencode in *. simpl.
  now rewrite (form_urlencode_safe_byte c Hc), (IH Hs).
Qed.

Lemma query_with_offset (v : string) :
  URLSearchParams_toString (fixed_params ++ [("offset", v)])
  = URLSearchParams_toString fixed_params +++ "&offset=" +++ form_urlencode v.
Proof. reflexivity. Qed.

(** The URL of the request for a truthy token. *)
Lemma page_request_url (d : Deployment) (process_env : Env) (token : JSON) :
  truthy token = true ->
  exists query,
    url (page_request d process_env token) = endpoint d process_env +++ "?" +++ query
    /\ query = URLSearchParams_toString fixed_params +++ "&offset="
               +++ form_urlencode (ToString token)
    /\ parse_urlencoded query = fixed_params ++ [("offset", ToString token)].
Proof.
  intros Htruthy. eexists. split; [| split; [reflexivity |]].
  - cbn [url page_request]. rewrite buildAirtableURL_eq, Htruthy.
    now rewrite query_with_offset.
  - now rewrite <- query_with_offset, parse_urlencoded_toString.
Qed.

Lemma failure_status (d : Deployment) (detail : string) :
  In (fst (failure_class d detail)) [401; 403; 404; 422; 429; 500]%N.
Proof.
  destruct d; [rewrite failure_class_serverless | rewrite failure_class_vercel];
  repeat match goal with
         | |- context [if ?a || ?b then _ else _] => destruct (a || b)
         end; simpl; tauto.
Qed.

Lemma failure_status_not_ok (d : Deployment) (detail : string) :
  fst (failure_class d detail) <> 200%N.
Proof.
  pose proof (failure_status d detail) as H. simpl in H.
  intros E. rewrite E in H.
  repeat destruct H as [H | H]; try discriminate H; exact H.
Qed.

Lemma development_fields_no_records (d : Deployment) (process_env : Env) (e : JsError) :
  assoc "records" (development_fields d process_env e) = None.
Proof.
  unfold development_fields.
  destruct (strict_eq (process_env "NODE_ENV") "development"); [| reflexivity].
  destruct d; [reflexivity |].
  now destruct (process_env "AIRTABLE_BASE_ID").
Qed.

(** Where no rule is triggered by a word, the status is the one read from
    the codes alone. *)
Lemma failure_class_by_code (detail : string) :
  existsb (includes detail)
    ["Unauthorized"; "Forbidden"; "Not Found"; "Unprocessable"; "Too Many Requests"]
  = false ->
  fst (failure_class Vercel detail) = status_by_code detail.
Proof.
  cbn [existsb]. rewrite orb_false_r. intros H.
  repeat (apply orb_false_elim in H as [?H H]).
  rewrite failure_class_vercel. unfold status_by_code.
  rewrite H, H0, H1, H2, H3, !orb_false_r.
  repeat match goal with
         | |- context [if ?a then _ else _] => destruct a; [reflexivity |]
         end.
  reflexivity.
Qed.

(** Whatever the upstream does, a run starts with the request that carries
    no token. *)
Lemma fetchAllRecords_first_request (d : Deployment) (engine : Engine)
      (upstream : Upstream) (process_env : Env) (fuel : nat) :
  exists more,
    snd (fetchAllRecords d engine upstream process_env (S fuel) [])
    = page_request d process_env JNull :: more.
Proof.
  destruct (loop_first_request engine upstream _ _ _
              (fetchPage_eq d engine upstream process_env) fuel [] JNull [])
    as [more Hrun].
  exists more. rewrite fetchAllRecords_eq.
  destruct (paginate engine (fetchPage d engine upstream process_env) (S fuel)
              ([], JNull) []) as [[vars | e |] w']; exact Hrun.
Qed.

(** ** The scenarios of the specification, run *)

Import Samples.

(** Scenario 2: two pages linked by [tok1]. *)
Example scenario_two_pages :
  let upstream := scripted [Resolved (page_response {| items := [r1]; next := Some "tok1" |});
                            Resolved (page_response {| items := [r2]; next := None |})] in
  let run := fetchAllRecords Vercel v8 upstream production 10 [] in
  fst run = Returns [r1; r2]
  /\ List.length (snd run) = 2
  /\ option_map (fun req => includes (url req) "offset=tok1") (nth_error (snd run) 1)
     = Some true
  /\ option_map (fun req => includes (url req) "offset") (nth_error (snd run) 0)
     = Some false.
Proof. vm_compute. repeat split. Qed.

(** Scenario 3: 401 on the first call. *)
Example scenario_unauthorized :
  let run := handler Vercel v8 (scripted [Resolved unauthorized]) production 10
               get fresh_res [] in
  option_map statusCode (match fst run with Returns res => Some res | _ => None end)
  = Some 401%N
  /\ option_map (body_field "error")
       (match fst run with Returns res => Some res | _ => None end)
     = Some (Some (JStr "Authentication error"))
  /\ List.length (snd run) = 1.
Proof. vm_compute. repeat split. Qed.

(** Scenario 4: one empty page. *)
Example scenario_empty :
  fst (handler Serverless v8 (scripted [Resolved (page_response empty_page)])
         production 10 get fresh_res [])
  = Returns (res_json (res_status (setCORSHeaders Serverless fresh_res) 200)
               (JObj [("success", JBool true);
                      ("records", JArr []);
                      ("totalRecords", JNum "0");
                      ("table", JStr "TableName");
                      ("filter", JStr "NOT({Status}='Done')");
                      ("sort", JObj [("field", JStr "Name");
                                     ("direction", JStr "asc")])])).
Proof. reflexivity. Qed.

(** Scenario 5: the second page is refused with 429.  The Vercel file
    answers 429; [serverless-airtable.js], which has no rule for 429,
    answers 500. *)
Example scenario_rate_limited :
  let upstream := scripted [Resolved (page_response {| items := [r1]; next := Some "tokA" |});
                            Resolved rate_limited] in
  let status_of run :=
    match fst run with
    | Returns res => Some (statusCode res, body_field "error" res, body_field "records" res)
    | _ => None
    end in
  status_of (handler Vercel v8 upstream production 10 get fresh_res [])
  = Some (429%N, Some (JStr "Rate limit exceeded"), None)
  /\ status_of (handler Serverless v8 upstream production 10 get fresh_res [])
     = Some (500%N, Some (JStr "Failed to fetch Airtable records"), None).
Proof. vm_compute. repeat split. Qed.

(** An error body that is JSON is reprinted with two spaces of indentation
    in the Vercel file and passed on as it came in the other. *)
Example error_details_json :
  let body := JObj [("error", JObj [("type", JStr "NOT_FOUND")])] in
  let r := {| status := 404;
              text := "{" +++ quote "error" +++ ":{" +++ quote "type" +++ ":"
                      +++ quote "NOT_FOUND" +++ "}}";
              parsed := Some body |} in
  error_details Vercel r
  = "{" +++ newline +++ "  " +++ quote "error" +++ ": {" +++ newline
    +++ "    " +++ quote "type" +++ ": " +++ quote "NOT_FOUND" +++ newline
    +++ "  }" +++ newline +++ "}"
  /\ error_details Serverless r = text r.
Proof. vm_compute. repeat split. Qed.

(** A records value that is not a list: a string is spread into its
    characters, a number makes the spread throw. *)
Example spread_of_non_arrays :
  fst (push_spread v8 [r1] (JStr "ab") []) = Returns [r1; JStr "a"; JStr "b"]
  /\ fst (push_spread v8 [r1] (JNum "7") [])
     = Throws (new_TypeError v8 (not_iterable_message v8 (JNum "7"))).
Proof. vm_compute. repeat split. Qed.

(* ------------------------------------------------------------------ *)
(** * The claims *)



Ltac serve_page :=
  eexists; split; [reflexivity |];
  split; [reflexivity |];
  eexists; split; [reflexivity |];
  split; [reflexivity |]; simpl; auto.

(** C1 (ordering).  When the upstream serves the chain of pages P1..Pn, the
    tokens of P1..Pn-1 present and that of Pn absent, [fetchAllRecords]
    returns the records of P1, then those of P2, ..., then those of Pn, each
    page's records in the order of the page, nothing added, dropped or
    reordered.  This holds in both deployments. *)
Theorem fetchAllRecords_ordering (d : Deployment) (engine : Engine)
        (upstream : Upstream) (process_env : Env) (pages : list Page) (fuel : nat) :
  chain pages = true ->
  serves upstream (page_request d process_env) [] JNull pages ->
  List.length pages <= fuel ->
  fst (fetchAllRecords d engine upstream process_env fuel [])
  = Returns (List.concat (map items pages)).
Proof.
  intros Hchain Hserves Hfuel.
  now rewrite (fetchAllRecords_chain d engine upstream process_env pages fuel).
Qed.

Lemma fetchAllRecords_ordering_witness :
  fst (fetchAllRecords Vercel v8 two_pages production 2 []) = Returns [r1; r2; r3]
  /\ fst (fetchAllRecords Serverless v8 two_pages production 7 [])
     = Returns [r1; r2; r3].
Proof.
  split.
  - apply (fetchAllRecords_ordering Vercel v8 two_pages production [p1; p2] 2).
    + reflexivity.
    + simpl. split; [serve_page | split; [serve_page | exact I]].
    + simpl. lia.
  - apply (fetchAllRecords_ordering Serverless v8 two_pages production [p1; p2] 7).
    + reflexivity.
    + simpl. split; [serve_page | split; [serve_page | exact I]].
    + simpl. lia.
Defined.

(** C5 (termination).  For a chain of n pages, the first n-1 with a
    non-empty token and the n-th without, [fetchAllRecords] returns, after
    exactly n calls of the page fetcher: with fuel for n iterations or more
    the run ends and has issued n requests, n being at least one, and with
    fuel for fewer than n iterations the loop is still running.  Whatever
    the upstream answers, the first iteration issues a request, the one
    without a token. *)
Theorem fetchAllRecords_terminates (d : Deployment) (engine : Engine)
        (upstream : Upstream) (process_env : Env) (pages : list Page) (fuel : nat) :
  chain pages = true ->
  serves upstream (page_request d process_env) [] JNull pages ->
  (List.length pages <= fuel ->
   exists allRecords w',
     fetchAllRecords d engine upstream process_env fuel [] = (Returns allRecords, w')
     /\ List.length w' = List.length pages /\ 1 <= List.length w')
  /\ (fuel < List.length pages ->
      fst (fetchAllRecords d engine upstream process_env fuel []) = OutOfFuel)
  /\ (forall any_upstream any_fuel,
         exists more,
           snd (fetchAllRecords d engine any_upstream process_env (S any_fuel) [])
           = page_request d process_env JNull :: more).
Proof.
  intros Hchain Hserves.
  split; [| split; [| intros; apply fetchAllRecords_first_request]]; intros Hfuel.
  - eexists _, _. split.
    + exact (fetchAllRecords_chain d engine upstream process_env pages fuel
               Hchain Hserves Hfuel).
    + rewrite requests_for_length. split; [reflexivity |].
      now apply chain_nonempty.
  - rewrite fetchAllRecords_eq.
    pose proof (loop_chain_short engine upstream _ _ _
                  (fetchPage_eq d engine upstream process_env)
                  pages Hchain [] [] JNull fuel Hserves Hfuel) as Hshort.
    destruct (paginate engine (fetchPage d engine upstream process_env) fuel
                ([], JNull) []) as [[vars | e |] w']; simpl in *;
      congruence.
Qed.

Lemma fetchAllRecords_terminates_witness :
  (exists allRecords w',
      fetchAllRecords Vercel v8 two_pages production 2 [] = (Returns allRecords, w')
      /\ List.length w' = 2 /\ 1 <= List.length w')
  /\ (exists allRecords w',
         fetchAllRecords Serverless v8 (scripted [Resolved (page_response empty_page)])
           production 1 [] = (Returns allRecords, w')
         /\ List.length w' = 1 /\ 1 <= List.length w')
  /\ fst (fetchAllRecords Vercel v8 two_pages production 1 []) = OutOfFuel.
Proof.
  assert (serves two_pages (page_request Vercel production) [] JNull [p1; p2])
    as Hserves by (simpl; split; [serve_page | split; [serve_page | exact I]]).
  split; [| split].
  - apply (proj1 (fetchAllRecords_terminates Vercel v8 two_pages production
                    [p1; p2] 2 eq_refl Hserves)). simpl. lia.
  - apply (fetchAllRecords_terminates Serverless v8
             (scripted [Resolved (page_response empty_page)]) production
             [empty_page] 1 eq_refl).
    + simpl. split; [serve_page | exact I].
    + simpl. lia.
  - apply (proj1 (proj2 (fetchAllRecords_terminates Vercel v8 two_pages production
                           [p1; p2] 1 eq_refl Hserves))). simpl. lia.
Defined.

(** C3 (error propagation), as amended.  If the first k-1 calls are served
    pages that announce a successor and the k-th call is answered with a
    non-success status, then the k-th page fetch throws the error
    [Airtable API error (status): detail], [fetchAllRecords] throws that same
    error, and no call follows: k calls are made in total, the k-1 that
    succeeded and the one that failed. *)
Theorem fetchAllRecords_error_propagation (d : Deployment) (engine : Engine)
        (upstream : Upstream) (process_env : Env) (prefix : list Page)
        (r : Response) (fuel : nat) :
  linked prefix = true ->
  serves upstream (page_request d process_env) [] JNull prefix ->
  upstream (requests_for (page_request d process_env) JNull prefix)
    (page_request d process_env (offset_after JNull prefix)) = Resolved r ->
  ok r = false ->
  List.length prefix < fuel ->
  let k := S (List.length prefix) in
  let e := new_Error engine
             ("Airtable API error (" +++ string_of_N (status r) +++ "): "
              +++ error_details d r) in
  exists w',
    fetchPage d engine upstream process_env (offset_after JNull prefix)
      (requests_for (page_request d process_env) JNull prefix) = (Throws e, w')
    /\ fetchAllRecords d engine upstream process_env fuel [] = (Throws e, w')
    /\ List.length w' = k.
Proof.
  intros Hlinked Hserves Hup Hok Hfuel k e.
  assert (fetchPage d engine upstream process_env (offset_after JNull prefix)
            (requests_for (page_request d process_env) JNull prefix)
          = (Throws e,
             requests_for (page_request d process_env) JNull prefix
             ++ [page_request d process_env (offset_after JNull prefix)])) as Hfetch.
  { rewrite fetchPage_eq. unfold page_fetch, read_page. now rewrite Hup, Hok. }
  eexists. split; [exact Hfetch |]. split.
  - now apply (fetchAllRecords_throws d engine upstream process_env prefix).
  - rewrite length_app, requests_for_length. simpl. subst k. lia.
Qed.

Lemma fetchAllRecords_error_propagation_witness :
  exists w',
    fetchPage Vercel v8
      (scripted [Resolved (page_response p1); Resolved rate_limited]) production
      (JStr "itr1/rec2")
      (requests_for (page_request Vercel production) JNull [p1])
    = (Throws (new_Error v8 "Airtable API error (429): slow down"), w')
    /\ fetchAllRecords Vercel v8
         (scripted [Resolved (page_response p1); Resolved rate_limited])
         production 5 []
       = (Throws (new_Error v8 "Airtable API error (429): slow down"), w')
    /\ List.length w' = 2.
Proof.
  apply (fetchAllRecords_error_propagation Vercel v8
           (scripted [Resolved (page_response p1); Resolved rate_limited])
           production [p1] rate_limited 5).
  - reflexivity.
  - simpl. split; [serve_page | exact I].
  - reflexivity.
  - reflexivity.
  - simpl. lia.
Defined.

(** C3 as stated fails: when the very first call (k = 1) is answered with
    401, one call has been made, not k-1 = 0. *)
Lemma fetchAllRecords_error_calls_counterexample :
  let run := fetchAllRecords Serverless v8 (scripted [Resolved unauthorized])
               production 5 [] in
  let k := 1 in
  fst run = Throws (new_Error v8 "Airtable API error (401): Unauthorized")
  /\ List.length (snd run) = k
  /\ List.length (snd run) <> k - 1.
Proof. vm_compute. repeat split. discriminate. Qed.

(** C4 (token pass-through), as amended.  In every run of [fetchAllRecords],
    if the response to request i carries the continuation token [t] and a
    request i+1 is issued, then that request carries [t] as its [offset]
    query parameter, untouched by the program: the URL is the endpoint
    followed by the fixed query and [&offset=] with the form-urlencoded
    token, the parameter list the upstream parses from it ends with
    [offset] = [t] byte for byte, and the URL holds [t] literally when [t]
    consists of the characters [A-Z a-z 0-9 * - . _] only. *)
Theorem token_pass_through (d : Deployment) (engine : Engine) (upstream : Upstream)
        (process_env : Env) (fuel : nat) (i : nat) (req req' : Request)
        (r : Response) (fields : list (string * JSON)) (t : string) :
  let w' := snd (fetchAllRecords d engine upstream process_env fuel []) in
  nth_error w' i = Some req ->
  upstream (firstn i w') req = Resolved r ->
  parsed r = Some (JObj fields) ->
  assoc "offset" fields = Some (JStr t) ->
  nth_error w' (S i) = Some req' ->
  exists query,
    req' = page_request d process_env (JStr t)
    /\ url req' = endpoint d process_env +++ "?" +++ query
    /\ query = URLSearchParams_toString fixed_params +++ "&offset="
               +++ form_urlencode t
    /\ parse_urlencoded query = fixed_params ++ [("offset", t)]
    /\ lookup "offset" (parse_urlencoded query) = Some t
    /\ form_urldecode (form_urlencode t) = t
    /\ (forallb form_safe (list_ascii_of_string t) = true ->
        query = URLSearchParams_toString fixed_params +++ "&offset=" +++ t).
Proof.
  intros w' Hreq Hup Hparsed Hoffset Hreq'.
  destruct (fetchAllRecords_token_passed d engine upstream process_env fuel i req' Hreq')
    as (req0 & r0 & fields0 & token & Hreq0 & Hup0 & _ & Hparsed0 & Hoffset0 & Htruthy & ->).
  fold w' in Hreq0, Hup0.
  assert (req0 = req) as -> by congruence.
  assert (r0 = r) as -> by congruence.
  assert (fields0 = fields) as -> by congruence.
  assert (token = JStr t) as -> by congruence.
  destruct (page_request_url d process_env (JStr t) Htruthy) as (query & Hurl & Hquery & Hparse).
  cbn [ToString] in Hquery, Hparse.
  exists query. repeat split; try assumption.
  - rewrite Hparse. reflexivity.
  - apply form_urldecode_encode.
  - intros Hsafe. now rewrite Hquery, (form_urlencode_safe t Hsafe).
Qed.

Lemma token_pass_through_witness :
  exists query,
    page_request Vercel production (JStr "itr1/rec2")
    = page_request Vercel production (JStr "itr1/rec2")
    /\ url (page_request Vercel production (JStr "itr1/rec2"))
       = endpoint Vercel production +++ "?" +++ query
    /\ query = URLSearchParams_toString fixed_params +++ "&offset="
               +++ form_urlencode "itr1/rec2"
    /\ parse_urlencoded query = fixed_params ++ [("offset", "itr1/rec2")]
    /\ lookup "offset" (parse_urlencoded query) = Some "itr1/rec2"
    /\ form_urldecode (form_urlencode "itr1/rec2") = "itr1/rec2"
    /\ (forallb form_safe (list_ascii_of_string "itr1/rec2") = true ->
        query = URLSearchParams_toString fixed_params +++ "&offset=" +++ "itr1/rec2").
Proof.
  apply (token_pass_through Vercel v8 two_pages production 2 0
           (page_request Vercel production JNull)
           (page_request Vercel production (JStr "itr1/rec2"))
           (page_response p1) [("records", JArr [r1; r2]); ("offset", JStr "itr1/rec2")]
           "itr1/rec2"); reflexivity.
Defined.

(** C4 as stated fails: the token [itr1/rec2] returned with the first page
    travels in the second request as [itr1%2Frec2]; the bytes of the token
    occur nowhere in the URL. *)
Lemma token_pass_through_counterexample :
  let w' := snd (fetchAllRecords Serverless v8 two_pages production 2 []) in
  assoc "offset" [("records", JArr (items p1)); ("offset", JStr "itr1/rec2")]
  = Some (JStr "itr1/rec2")
  /\ parsed (page_response p1)
     = Some (JObj [("records", JArr (items p1)); ("offset", JStr "itr1/rec2")])
  /\ two_pages [] (page_request Serverless production JNull)
     = Resolved (page_response p1)
  /\ option_map url (nth_error w' 1)
     = Some "https://api.airtable.com/v0/appBASE/TableName?filterByFormula=NOT%28%7BStatus%7D%3D%27Done%27%29&sort%5B0%5D%5Bfield%5D=Name&sort%5B0%5D%5Bdirection%5D=asc&pageSize=50&offset=itr1%2Frec2"
  /\ option_map (fun req => includes (url req) "itr1/rec2") (nth_error w' 1)
     = Some false.
Proof. vm_compute. repeat split. Qed.

(** C8 (request URL), as amended.  For every optional continuation token
    the URL is the endpoint, whose path ends with the collection identifier,
    followed by a query that holds [filterByFormula] with the fixed filter
    expression, [sort[0][field]] and [sort[0][direction]] with the fixed
    sort, and [pageSize], 50, which is at most 100; the [offset] parameter is
    there, with the token as its value, if and only if a non-empty token was
    provided. *)
Theorem buildAirtableURL_parameters (d : Deployment) (process_env : Env)
        (token : option string) :
  exists query,
    buildAirtableURL d process_env (js_token token)
    = endpoint d process_env +++ "?" +++ query
    /\ endpoint d process_env
       = "https://api.airtable.com/v0/" +++ template (process_env "AIRTABLE_BASE_ID")
         +++ "/" +++ table_segment d process_env
    /\ lookup "filterByFormula" (parse_urlencoded query) = Some FILTER_FORMULA
    /\ lookup "sort[0][field]" (parse_urlencoded query) = Some SORT_FIELD
    /\ lookup "sort[0][direction]" (parse_urlencoded query) = Some SORT_DIRECTION
    /\ lookup "pageSize" (parse_urlencoded query) = Some "50"
    /\ (PAGE_SIZE = 50 /\ PAGE_SIZE <= 100)%N
    /\ lookup "offset" (parse_urlencoded query) = offset_param token
    /\ (lookup "offset" (parse_urlencoded query) <> None <-> is_set token = true).
Proof.
  eexists. split; [apply buildAirtableURL_eq |].
  rewrite parse_urlencoded_toString.
  assert (lookup "offset"
            (fixed_params
             ++ (if truthy (js_token token)
                 then [("offset", ToString (js_token token))] else []))
          = offset_param token) as Hoffset.
  { destruct token as [t |]; simpl; [| reflexivity].
    now destruct (t =? "")%string. }
  do 5 (split; [reflexivity |]).
  split; [split; [reflexivity | discriminate] |].
  split; [exact Hoffset |].
  rewrite Hoffset. destruct token as [t |]; simpl.
  - destruct (t =? "")%string; simpl; split; congruence.
  - split; congruence.
Qed.

(** C8 as stated fails: with the empty string provided as token the URL has
    no [offset] parameter. *)
Lemma buildAirtableURL_offset_counterexample :
  let provided : option string := Some "" in
  provided <> None
  /\ buildAirtableURL Serverless production (js_token provided)
     = "https://api.airtable.com/v0/appBASE/TableName?filterByFormula=NOT%28%7BStatus%7D%3D%27Done%27%29&sort%5B0%5D%5Bfield%5D=Name&sort%5B0%5D%5Bdirection%5D=asc&pageSize=50"
  /\ includes (buildAirtableURL Serverless production (js_token provided)) "offset"
     = false
  /\ includes (buildAirtableURL Vercel production (js_token provided)) "offset"
     = false.
Proof. repeat split. discriminate. Qed.

(** C2 (failure response), as amended.  For every invocation that passes the
    guards of the handler and whose fetch fails with an error, the response
    body is [{success: false, error: category, message: detail}], followed
    when [NODE_ENV] is [development] by [stack] (and in the Vercel file
    [baseId] and [tableId]), and status and category come from the first
    rule that matches the detail, in this order: [401] or [Unauthorized]
    gives 401 Authentication error, [403] or [Forbidden] gives 403
    Permission denied, [404] or [Not Found] gives 404 Resource not found,
    [422] or [Unprocessable] gives 422 Invalid request, [429] or
    [Too Many Requests] gives 429 Rate limit exceeded, anything else gives
    500 Internal server error.  In [serverless-airtable.js] the rules are the
    first four, anything else gives 500, and the category is always
    [Failed to fetch Airtable records]. *)
Theorem handler_failure_response (d : Deployment) (engine : Engine)
        (upstream : Upstream) (process_env : Env) (fuel : nat) (req : Req)
        (res : Res) (w w' : World) (e : JsError) :
  admitted process_env req = true ->
  fetchAllRecords d engine upstream process_env fuel w = (Throws e, w') ->
  handler d engine upstream process_env fuel req res w
  = (Returns
       (res_json
          (res_status (setCORSHeaders d res) (fst (failure_class d (message e))))
          (JObj ([("success", JBool false);
                  ("error", JStr (snd (failure_class d (message e))));
                  ("message", JStr (message e))]
                 ++ development_fields d process_env e))),
     w').
Proof.
  intros Hadmitted Hfetch.
  now rewrite (handler_admitted d engine upstream process_env fuel req res w Hadmitted),
    Hfetch.
Qed.

Lemma handler_failure_response_witness :
  handler Vercel v8 (scripted [Resolved (page_response p1); Resolved rate_limited])
    production 5 get fresh_res []
  = (Returns
       (res_json (res_status (setCORSHeaders Vercel fresh_res) 429)
          (JObj [("success", JBool false);
                 ("error", JStr "Rate limit exceeded");
                 ("message", JStr "Airtable API error (429): slow down")])),
     [page_request Vercel production JNull;
      page_request Vercel production (JStr "itr1/rec2")]).
Proof.
  apply (handler_failure_response Vercel v8
           (scripted [Resolved (page_response p1); Resolved rate_limited])
           production 5 get fresh_res []
           [page_request Vercel production JNull;
            page_request Vercel production (JStr "itr1/rec2")]
           (new_Error v8 "Airtable API error (429): slow down"));
    reflexivity.
Defined.

(** C2 as stated fails.  In the Vercel file a detail without any of the five
    codes, which the claim sends to 500, is answered with 401 because it
    holds the word [Unauthorized]; in [serverless-airtable.js] a detail with
    429 is answered with 500 and the category is not [Rate limit exceeded]. *)
Lemma handler_failure_status_counterexample :
  let detail := "Airtable API error (400): Unauthorized scope" in
  let res' := fst (handler Vercel v8 (scripted [Resolved bad_scope]) production 5
                     get fresh_res []) in
  let res'' := fst (handler Serverless v8 (scripted [Resolved rate_limited])
                      production 5 get fresh_res []) in
  status_by_code detail = 500%N
  /\ res' = Returns (res_json (res_status (setCORSHeaders Vercel fresh_res) 401)
                       (JObj [("success", JBool false);
                              ("error", JStr "Authentication error");
                              ("message", JStr detail)]))
  /\ status_by_code "Airtable API error (429): slow down" = 429%N
  /\ res'' = Returns (res_json (res_status (setCORSHeaders Serverless fresh_res) 500)
                        (JObj [("success", JBool false);
                               ("error", JStr "Failed to fetch Airtable records");
                               ("message",
                                JStr "Airtable API error (429): slow down")])).
Proof. vm_compute. repeat split. Qed.

(** C6 (no partial result).  If the page fetch that follows any number of
    successfully fetched pages fails, the handler answers with the failure
    response of that error only: its status is not 200, its body has
    [success: false] and no [records] property, whatever records the pages
    before had delivered. *)
Theorem handler_discards_partial (d : Deployment) (engine : Engine)
        (upstream : Upstream) (process_env : Env) (prefix : list Page)
        (e : JsError) (w' : World) (fuel : nat) (req : Req) (res : Res) :
  admitted process_env req = true ->
  linked prefix = true ->
  serves upstream (page_request d process_env) [] JNull prefix ->
  fetchPage d engine upstream process_env (offset_after JNull prefix)
    (requests_for (page_request d process_env) JNull prefix) = (Throws e, w') ->
  List.length prefix < fuel ->
  exists res',
    handler d engine upstream process_env fuel req res [] = (Returns res', w')
    /\ body res' = Json (failure_body d process_env e)
    /\ statusCode res' = fst (failure_class d (message e))
    /\ statusCode res' <> 200%N
    /\ body_field "success" res' = Some (JBool false)
    /\ body_field "records" res' = None.
Proof.
  intros Hadmitted Hlinked Hserves Hfetch Hfuel.
  eexists. split.
  - rewrite (handler_admitted d engine upstream process_env fuel req res [] Hadmitted).
    now rewrite (fetchAllRecords_throws d engine upstream process_env prefix e w' fuel).
  - cbn [body statusCode res_json res_status]. repeat split.
    + apply failure_status_not_ok.
    + unfold body_field, failure_body. cbn [body res_json assoc app String.eqb].
      apply development_fields_no_records.
Qed.

Lemma handler_discards_partial_witness :
  exists res',
    handler Vercel v8 (scripted [Resolved (page_response p1); Resolved rate_limited])
      production 5 get fresh_res []
    = (Returns res',
       [page_request Vercel production JNull;
        page_request Vercel production (JStr "itr1/rec2")])
    /\ body res'
       = Json (failure_body Vercel production
                 (new_Error v8 "Airtable API error (429): slow down"))
    /\ statusCode res'
       = fst (failure_class Vercel "Airtable API error (429): slow down")
    /\ statusCode res' <> 200%N
    /\ body_field "success" res' = Some (JBool false)
    /\ body_field "records" res' = None.
Proof.
  apply (handler_discards_partial Vercel v8
           (scripted [Resolved (page_response p1); Resolved rate_limited])
           production [p1] (new_Error v8 "Airtable API error (429): slow down")
           [page_request Vercel production JNull;
            page_request Vercel production (JStr "itr1/rec2")]
           5 get fresh_res).
  - reflexivity.
  - reflexivity.
  - simpl. split; [serve_page | exact I].
  - reflexivity.
  - simpl. lia.
Defined.

(** C7 (empty collection).  A successful response whose body is an object
    without a [records] property gives the empty record sequence, and one
    without an [offset] property gives no token, and no error is raised;
    so when the only page has no records (an empty array or no property) and
    no token (no property or null), the handler answers 200 with
    [success: true], [records: []] and [totalRecords: 0], after one call. *)
Theorem empty_collection (d : Deployment) (engine : Engine) (upstream : Upstream)
        (process_env : Env) (offset : JSON) (w : World) (r : Response)
        (fields : list (string * JSON)) :
  upstream w (page_request d process_env offset) = Resolved r ->
  ok r = true ->
  parsed r = Some (JObj fields) ->
  (exists pageData,
      fetchPage d engine upstream process_env offset w
      = (Returns pageData, w ++ [page_request d process_env offset])
      /\ (assoc "records" fields = None -> PageData.records pageData = JArr [])
      /\ (assoc "offset" fields = None ->
          PageData.offset pageData = JNull /\ PageData.hasMore pageData = false))
  /\ (forall fuel req res,
         admitted process_env req = true ->
         w = [] -> offset = JNull ->
         assoc "records" fields = None \/ assoc "records" fields = Some (JArr []) ->
         assoc "offset" fields = None \/ assoc "offset" fields = Some JNull ->
         1 <= fuel ->
         exists res',
           handler d engine upstream process_env fuel req res []
           = (Returns res', [page_request d process_env JNull])
           /\ statusCode res' = 200%N
           /\ body res' = Json (success_body d process_env [])
           /\ body_field "success" res' = Some (JBool true)
           /\ body_field "records" res' = Some (JArr [])
           /\ body_field "totalRecords" res' = Some (JNum "0")).
Proof.
  intros Hup Hok Hparsed. split.
  - eexists. split.
    + rewrite fetchPage_eq. unfold page_fetch, read_page.
      rewrite Hup, Hok, Hparsed. reflexivity.
    + cbn [PageData.records PageData.offset PageData.hasMore].
      split; [now intros -> | now intros ->].
  - intros fuel req res Hadmitted -> -> Hrecords Hoffset Hfuel.
    destruct fuel as [| fuel]; [lia |].
    eexists. split.
    + rewrite (handler_admitted d engine upstream process_env _ req res [] Hadmitted).
      rewrite fetchAllRecords_eq, paginate_S. unfold page_step, bind.
      rewrite fetchPage_eq. unfold page_fetch, read_page.
      rewrite Hup, Hok, Hparsed.
      destruct Hrecords as [-> | ->], Hoffset as [-> | ->]; reflexivity.
    + repeat split.
Qed.

Lemma empty_collection_witness :
  exists res',
    handler Vercel v8 (scripted [Resolved (page_response empty_page)]) production 3
      get fresh_res []
    = (Returns res', [page_request Vercel production JNull])
    /\ statusCode res' = 200%N
    /\ body res' = Json (success_body Vercel production [])
    /\ body_field "success" res' = Some (JBool true)
    /\ body_field "records" res' = Some (JArr [])
    /\ body_field "totalRecords" res' = Some (JNum "0").
Proof.
  apply (proj2 (empty_collection Vercel v8
                  (scripted [Resolved (page_response empty_page)]) production
                  JNull [] (page_response empty_page) [("records", JArr [])]
                  eq_refl eq_refl eq_refl)
           3 get fresh_res eq_refl eq_refl eq_refl).
  - right. reflexivity.
  - left. reflexivity.
  - lia.
Defined.

(** C9 (guards).  In both deployments: an OPTIONS request is answered 200
    with no body; a request that is neither OPTIONS nor GET is answered 405;
    a GET made while the API key or the base identifier is not set is
    answered 500 with the category [Server configuration error]; and in all
    three cases no request goes to the upstream. *)
Theorem handler_guards (d : Deployment) (engine : Engine) (upstream : Upstream)
        (process_env : Env) (fuel : nat) (req : Req) (res : Res) (w : World) :
  (method req = "OPTIONS" ->
   handler d engine upstream process_env fuel req res w
   = (Returns (res_end (res_status (setCORSHeaders d res) 200)), w))
  /\ (method req <> "OPTIONS" -> method req <> "GET" ->
      exists res',
        handler d engine upstream process_env fuel req res w = (Returns res', w)
        /\ statusCode res' = 405%N
        /\ body_field "error" res' = Some (JStr "Method not allowed"))
  /\ (method req = "GET" ->
      is_set (process_env "AIRTABLE_API_KEY") = false
      \/ is_set (process_env "AIRTABLE_BASE_ID") = false ->
      exists res',
        handler d engine upstream process_env fuel req res w = (Returns res', w)
        /\ statusCode res' = 500%N
        /\ body_field "error" res' = Some (JStr "Server configuration error")).
Proof.
  split; [| split].
  - intros Hoptions.
    destruct d; unfold handler, ServerlessAirtable.handler, ApiAirtable.handler;
      now rewrite Hoptions.
  - intros Hoptions Hget.
    apply String.eqb_neq in Hoptions, Hget.
    destruct d; unfold handler, ServerlessAirtable.handler, ApiAirtable.handler;
      rewrite Hoptions, Hget; cbn [negb]; eexists; repeat split.
  - intros Hget Hunset.
    destruct d; unfold handler, ServerlessAirtable.handler, ApiAirtable.handler,
      ServerlessAirtable.AIRTABLE_API_KEY, ServerlessAirtable.AIRTABLE_BASE_ID,
      ApiAirtable.AIRTABLE_API_KEY, ApiAirtable.AIRTABLE_BASE_ID;
      rewrite Hget; cbn [String.eqb Ascii.eqb Bool.eqb negb];
      destruct (is_set (process_env "AIRTABLE_API_KEY")) eqn:Hkey; cbn [negb];
      try (eexists; repeat split; fail);
      destruct Hunset as [Hunset | Hunset]; try discriminate Hunset;
      rewrite Hunset; cbn [negb]; eexists; repeat split.
Qed.

Lemma handler_guards_witness :
  handler Vercel v8 two_pages production 5 {| method := "OPTIONS" |} fresh_res []
  = (Returns (res_end (res_status (setCORSHeaders Vercel fresh_res) 200)), [])
  /\ (exists res',
         handler Serverless v8 two_pages production 5 {| method := "POST" |}
           fresh_res [] = (Returns res', [])
         /\ statusCode res' = 405%N
         /\ body_field "error" res' = Some (JStr "Method not allowed"))
  /\ (exists res',
         handler Vercel v8 two_pages unconfigured 5 get fresh_res []
         = (Returns res', [])
         /\ statusCode res' = 500%N
         /\ body_field "error" res' = Some (JStr "Server configuration error")).
Proof.
  split; [| split].
  - apply (proj1 (handler_guards Vercel v8 two_pages production 5
                    {| method := "OPTIONS" |} fresh_res [])).
    reflexivity.
  - apply (proj1 (proj2 (handler_guards Serverless v8 two_pages production 5
                           {| method := "POST" |} fresh_res [])));
      discriminate.
  - apply (proj2 (proj2 (handler_guards Vercel v8 two_pages unconfigured 5
                           get fresh_res []))).
    + reflexivity.
    + left. reflexivity.
Defined.

(** C10 (truthiness).  When a successful response carries [offset: ""], the
    page fetcher returns no token ([offset] null, [hasMore] false); a chain
    whose last page carries the empty string ends there, with as many
    requests as pages and none after; and the URL built for the empty string
    is the one built for no token, without an [offset] parameter. *)
Theorem empty_token_stops (d : Deployment) (engine : Engine) (upstream : Upstream)
        (process_env : Env) :
  (forall offset w r fields,
      upstream w (page_request d process_env offset) = Resolved r ->
      ok r = true ->
      parsed r = Some (JObj fields) ->
      assoc "offset" fields = Some (JStr "") ->
      exists pageData,
        fetchPage d engine upstream process_env offset w
        = (Returns pageData, w ++ [page_request d process_env offset])
        /\ PageData.offset pageData = JNull
        /\ PageData.hasMore pageData = false)
  /\ (forall pages last fuel,
         linked pages = true ->
         next last = Some "" ->
         serves upstream (page_request d process_env) [] JNull (pages ++ [last]) ->
         List.length pages < fuel ->
         exists w',
           fetchAllRecords d engine upstream process_env fuel []
           = (Returns (List.concat (map items (pages ++ [last]))), w')
           /\ List.length w' = S (List.length pages))
  /\ buildAirtableURL d process_env (JStr "") = buildAirtableURL d process_env JNull
  /\ (exists query,
         buildAirtableURL d process_env (JStr "")
         = endpoint d process_env +++ "?" +++ query
         /\ lookup "offset" (parse_urlencoded query) = None).
Proof.
  split; [| split; [| split]].
  - intros offset w r fields Hup Hok Hparsed Hoffset.
    eexists. split.
    + rewrite fetchPage_eq. unfold page_fetch, read_page.
      rewrite Hup, Hok, Hparsed. reflexivity.
    + cbn [PageData.offset PageData.hasMore]. now rewrite Hoffset.
  - intros pages last fuel Hlinked Hlast Hserves Hfuel.
    eexists. split.
    + apply fetchAllRecords_chain; [| exact Hserves |].
      * apply chain_snoc; [exact Hlinked | now rewrite Hlast].
      * rewrite length_app. simpl. lia.
    + rewrite requests_for_length, length_app. simpl. lia.
  - now rewrite !buildAirtableURL_eq.
  - eexists. split; [apply buildAirtableURL_eq |].
    now rewrite parse_urlencoded_toString.
Qed.

Lemma empty_token_stops_witness :
  (exists pageData,
      fetchPage Vercel v8 (scripted [Resolved (page_response p_empty_token)])
        production JNull []
      = (Returns pageData, [] ++ [page_request Vercel production JNull])
      /\ PageData.offset pageData = JNull
      /\ PageData.hasMore pageData = false)
  /\ (exists w',
         fetchAllRecords Vercel v8
           (scripted [Resolved (page_response p1);
                      Resolved (page_response p_empty_token)]) production 9 []
         = (Returns (List.concat (map items ([p1] ++ [p_empty_token]))), w')
         /\ List.length w' = 2).
Proof.
  split.
  - apply (proj1 (empty_token_stops Vercel v8
                    (scripted [Resolved (page_response p_empty_token)]) production)
             JNull [] (page_response p_empty_token)
             [("records", JArr [r3]); ("offset", JStr "")]); reflexivity.
  - apply (proj1 (proj2 (empty_token_stops Vercel v8
                           (scripted [Resolved (page_response p1);
                                      Resolved (page_response p_empty_token)])
                           production))
             [p1] p_empty_token 9).
    + reflexivity.
    + reflexivity.
    + simpl. split; [serve_page | split; [serve_page | exact I]].
    + simpl. lia.
Defined.

(* ------------------------------------------------------------------ *)
(** * Further properties of the code *)

(** ** The handler *)

Lemma lookup_set_assoc_same (k v : string) (l : list (string * string)) :
  lookup k (set_assoc k v l) = Some v.
Proof.
  induction l as [| [k' v'] l IH]; simpl.
  - now rewrite String.eqb_refl.
  - destruct (k' =? k)%string eqn:E; simpl.
    + now rewrite String.eqb_refl.
    + now rewrite E.
Qed.

Lemma lookup_set_assoc_other (k k' v : string) (l : list (string * string)) :
  k <> k' -> lookup k (set_assoc k' v l) = lookup k l.
Proof.
  intros Hneq. induction l as [| [k0 v0] l IH]; simpl.
  - apply String.eqb_neq in Hneq. rewrite String.eqb_sym in Hneq. now rewrite Hneq.
  - destruct (k0 =? k')%string eqn:E; simpl.
    + apply String.eqb_eq in E. subst k0.
      assert ((k' =? k)%string = false) as ->
          by (apply String.eqb_neq; congruence).
      reflexivity.
    + now rewrite IH.
Qed.

Lemma setCORSHeaders_lookup (d : Deployment) (res : Res) (k v : string) :
  In (k, v) cors_headers -> lookup k (headers (setCORSHeaders d res)) = Some v.
Proof.
  intros Hin.
  assert (headers (setCORSHeaders d res)
          = set_assoc "Content-Type" "application/json"
              (set_assoc "Access-Control-Max-Age" "86400"
                 (set_assoc "Access-Control-Allow-Headers" "Content-Type, Authorization"
                    (set_assoc "Access-Control-Allow-Methods" "GET, OPTIONS"
                       (set_assoc "Access-Control-Allow-Origin" "*" (headers res))))))
    as -> by now destruct d.
  simpl in Hin.
  repeat destruct Hin as [[= <- <-] | Hin];
    repeat first [ apply lookup_set_assoc_same
                 | rewrite lookup_set_assoc_other by discriminate ].
  contradiction.
Qed.

(** Before the fetch, the handler answers on the spot: 200 without a body
    to OPTIONS, 405 to other methods, 500 when a credential is not set. *)
Lemma handler_not_admitted (d : Deployment) (engine : Engine) (upstream : Upstream)
      (process_env : Env) (fuel : nat) (req : Req) (res : Res) (w : World) :
  admitted process_env req = false ->
  exists code content,
    handler d engine upstream process_env fuel req res w
    = (Returns {| headers := headers (setCORSHeaders d res);
                  statusCode := code; body := content |}, w)
    /\ ((code = 200%N /\ content = Ended)
        \/ (In code [405; 500]%N
            /\ exists fields, content = Json (JObj fields)
                              /\ assoc "success" fields <> Some (JBool true))).
Proof.
  unfold admitted. intros Hadmitted.
  destruct d; unfold handler, ServerlessAirtable.handler, ApiAirtable.handler,
    ServerlessAirtable.AIRTABLE_API_KEY, ServerlessAirtable.AIRTABLE_BASE_ID,
    ApiAirtable.AIRTABLE_API_KEY, ApiAirtable.AIRTABLE_BASE_ID, setCORSHeaders.
  all: destruct (method req =? "OPTIONS")%string;
    [eexists _, _; split; [reflexivity | left; now split] |].
  all: destruct (method req =? "GET")%string; cbn [negb];
    [| eexists _, _; split; [reflexivity |];
       right; split; [simpl; tauto | eexists; split; [reflexivity | discriminate]]].
  all: destruct (is_set (process_env "AIRTABLE_API_KEY")); cbn [negb];
    [| eexists _, _; split; [reflexivity |];
       right; split; [simpl; tauto | eexists; split; [reflexivity | discriminate]]].
  all: destruct (is_set (process_env "AIRTABLE_BASE_ID")); cbn [negb];
    [discriminate Hadmitted |].
  all: eexists _, _; split; [reflexivity |];
    right; split; [simpl; tauto | eexists; split; [reflexivity | discriminate]].
Qed.

(** X1.  Every response of the handler, preflight, rejection, configuration
    error, success or failure alike, carries the five headers of
    [setCORSHeaders] with their fixed values, whatever headers the response
    object held before. *)
Theorem handler_cors_headers (d : Deployment) (engine : Engine) (upstream : Upstream)
        (process_env : Env) (fuel : nat) (req : Req) (res res' : Res) (w : World)
        (k v : string) :
  fst (handler d engine upstream process_env fuel req res w) = Returns res' ->
  In (k, v) cors_headers ->
  lookup k (headers res') = Some v.
Proof.
  intros Hrun Hin.
  assert (headers res' = headers (setCORSHeaders d res)) as ->;
    [| now apply setCORSHeaders_lookup].
  destruct (admitted process_env req) eqn:Hadmitted.
  - rewrite (handler_admitted d engine upstream process_env fuel req res w Hadmitted)
      in Hrun.
    destruct (fetchAllRecords d engine upstream process_env fuel w)
      as [[allRecords | e |] w']; simpl in Hrun; try discriminate Hrun;
      now injection Hrun as <-.
  - destruct (handler_not_admitted d engine upstream process_env fuel req res w
                Hadmitted) as (code & content & Heq & _).
    rewrite Heq in Hrun. now injection Hrun as <-.
Qed.

Lemma handler_cors_headers_witness :
  lookup "Access-Control-Allow-Origin"
    (headers (res_json (res_status (setCORSHeaders Vercel
               {| headers := [("Access-Control-Allow-Origin", "https://example.org")];
                  statusCode := 200; body := NotSent |}) 405)
       (JObj [("success", JBool false);
              ("error", JStr "Method not allowed");
              ("message", JStr "Only GET requests are supported")])))
  = Some "*".
Proof.
  apply (handler_cors_headers Vercel v8 two_pages production 3
           {| method := "DELETE" |}
           {| headers := [("Access-Control-Allow-Origin", "https://example.org")];
              statusCode := 200; body := NotSent |}
           _ [] "Access-Control-Allow-Origin" "*").
  - reflexivity.
  - simpl. tauto.
Defined.

(** X2.  The handler never lets an error escape: whatever the request, the
    configuration and the upstream do, its run does not end in a throw. *)
Theorem handler_never_throws (d : Deployment) (engine : Engine) (upstream : Upstream)
        (process_env : Env) (fuel : nat) (req : Req) (res : Res) (w : World)
        (e : JsError) :
  fst (handler d engine upstream process_env fuel req res w) <> Throws e.
Proof.
  destruct (admitted process_env req) eqn:Hadmitted.
  - rewrite (handler_admitted d engine upstream process_env fuel req res w Hadmitted).
    now destruct (fetchAllRecords d engine upstream process_env fuel w)
      as [[allRecords | e' |] w'].
  - destruct (handler_not_admitted d engine upstream process_env fuel req res w
                Hadmitted) as (code & content & -> & _).
    discriminate.
Qed.

(** X3.  The status of a response is one of 200, 401, 403, 404, 405, 422,
    429 and 500 (never 429 in [serverless-airtable.js]), and it is 200 in
    two cases only: the preflight answer without a body, and the body with
    [success: true]; conversely a body with [success: true] comes with 200. *)
Theorem handler_status (d : Deployment) (engine : Engine) (upstream : Upstream)
        (process_env : Env) (fuel : nat) (req : Req) (res res' : Res) (w : World) :
  fst (handler d engine upstream process_env fuel req res w) = Returns res' ->
  In (statusCode res') (handler_statuses d)
  /\ (statusCode res' = 200%N <->
      body res' = Ended \/ body_field "success" res' = Some (JBool true)).
Proof.
  intros Hrun.
  destruct (admitted process_env req) eqn:Hadmitted.
  - rewrite (handler_admitted d engine upstream process_env fuel req res w Hadmitted)
      in Hrun.
    destruct (fetchAllRecords d engine upstream process_env fuel w)
      as [[allRecords | e |] w']; simpl in Hrun; try discriminate Hrun;
      injection Hrun as <-.
    + split; [destruct d; simpl; tauto |].
      split; [intros _; right; reflexivity | reflexivity].
    + cbn [statusCode res_json res_status body].
      unfold body_field. cbn [body res_json failure_body assoc app String.eqb
                                Ascii.eqb Bool.eqb].
      split.
      * destruct d;
          [rewrite failure_class_serverless | rewrite failure_class_vercel];
          repeat match goal with
                 | |- context [if ?a || ?b then _ else _] => destruct (a || b)
                 end; simpl; tauto.
      * split.
        -- intros H. now apply failure_status_not_ok in H.
        -- intros [H | H]; discriminate H.
  - destruct (handler_not_admitted d engine upstream process_env fuel req res w
                Hadmitted) as (code & content & Heq & Hcases).
    rewrite Heq in Hrun. injection Hrun as <-.
    cbn [statusCode body]. unfold body_field. cbn [body].
    destruct Hcases as [[-> ->] | [Hcode (fields & -> & Hsuccess)]].
    + split; [destruct d; simpl; tauto |].
      split; [intros _; now left | reflexivity].
    + split.
      * simpl in Hcode. destruct d; simpl; tauto.
      * split.
        -- intros ->. simpl in Hcode.
           destruct Hcode as [H | [H | []]]; discriminate H.
        -- intros [H | H]; [discriminate H | contradiction].
Qed.

Lemma handler_status_witness :
  In 429%N (handler_statuses Vercel)
  /\ (429%N = 200%N <->
      Json (failure_body Vercel production
              (new_Error v8 "Airtable API error (429): slow down")) = Ended
      \/ body_field "success"
           (res_json (res_status (setCORSHeaders Vercel fresh_res) 429)
              (failure_body Vercel production
                 (new_Error v8 "Airtable API error (429): slow down")))
         = Some (JBool true)).
Proof.
  apply (handler_status Vercel v8
           (scripted [Resolved (page_response p1); Resolved rate_limited])
           production 5 get fresh_res
           (res_json (res_status (setCORSHeaders Vercel fresh_res) 429)
              (failure_body Vercel production
                 (new_Error v8 "Airtable API error (429): slow down"))) []).
  reflexivity.
Defined.

(** X4.  When the upstream serves a chain of pages, the handler answers 200
    with [success: true], all the records of the pages in order under
    [records], their number under [totalRecords], and the table, filter and
    sort of the configuration; it has issued one request per page. *)
Theorem handler_success (d : Deployment) (engine : Engine) (upstream : Upstream)
        (process_env : Env) (pages : list Page) (fuel : nat) (req : Req) (res : Res) :
  admitted process_env req = true ->
  chain pages = true ->
  serves upstream (page_request d process_env) [] JNull pages ->
  List.length pages <= fuel ->
  exists res' w',
    handler d engine upstream process_env fuel req res [] = (Returns res', w')
    /\ List.length w' = List.length pages
    /\ statusCode res' = 200%N
    /\ body_field "success" res' = Some (JBool true)
    /\ body_field "records" res' = Some (JArr (List.concat (map items pages)))
    /\ body_field "totalRecords" res'
       = Some (JNum (string_of_nat (List.length (List.concat (map items pages)))))
    /\ body_field "table" res' = Some (JStr (table_reported d process_env))
    /\ body_field "filter" res' = Some (JStr "NOT({Status}='Done')")
    /\ body_field "sort" res'
       = Some (JObj [("field", JStr "Name"); ("direction", JStr "asc")]).
Proof.
  intros Hadmitted Hchain Hserves Hfuel. eexists _, _. split.
  - rewrite (handler_admitted d engine upstream process_env fuel req res [] Hadmitted).
    now rewrite (fetchAllRecords_chain d engine upstream process_env pages fuel).
  - split; [apply requests_for_length |]. repeat split.
Qed.

Lemma handler_success_witness :
  exists res' w',
    handler Serverless v8 two_pages production 4 get fresh_res [] = (Returns res', w')
    /\ List.length w' = 2
    /\ statusCode res' = 200%N
    /\ body_field "success" res' = Some (JBool true)
    /\ body_field "records" res' = Some (JArr [r1; r2; r3])
    /\ body_field "totalRecords" res' = Some (JNum "3")
    /\ body_field "table" res' = Some (JStr "TableName")
    /\ body_field "filter" res' = Some (JStr "NOT({Status}='Done')")
    /\ body_field "sort" res'
       = Some (JObj [("field", JStr "Name"); ("direction", JStr "asc")]).
Proof.
  apply (handler_success Serverless v8 two_pages production [p1; p2] 4 get fresh_res).
  - reflexivity.
  - reflexivity.
  - simpl. split; [serve_page | split; [serve_page | exact I]].
  - simpl. lia.
Defined.

(** ** The page fetcher and the loop *)

Section PaginationMore.

Variable engine : Engine.
Variable upstream : Upstream.
Variable request_for : JSON -> Request.
Variable details : Response -> string.
Variable fetchPage : JSON -> M PageData.t.

Hypothesis fetchPage_eq : forall offset w,
  fetchPage offset w = page_fetch engine upstream request_for details offset w.

(** All the loop adds to the log are requests of the page fetcher. *)
Lemma loop_requests (fuel : nat) :
  forall allRecords offset w o w',
    paginate engine fetchPage fuel (allRecords, offset) w = (o, w') ->
    exists tokens, w' = w ++ map request_for tokens.
Proof.
  induction fuel as [| fuel IH]; intros allRecords offset w o w'.
  - intros [= _ <-]. exists []. now rewrite app_nil_r.
  - rewrite paginate_S.
    destruct (page_step engine fetchPage (allRecords, offset) w)
      as [o1 w1] eqn:Hstep.
    destruct (step_inv engine upstream request_for details fetchPage fetchPage_eq
                _ _ _ _ _ Hstep) as [-> _].
    destruct o1 as [[allRecords' offset'] | e |];
      try (intros [= _ <-]; now exists [offset]).
    cbn [snd]. destruct (truthy offset');
      [| intros [= _ <-]; now exists [offset]].
    intros Hrun. destruct (IH _ _ _ _ _ Hrun) as [tokens ->].
    exists (offset :: tokens). now rewrite <- app_assoc.
Qed.

(** While every answer is a page with a token the loop goes on, one request
    per iteration. *)
Lemma loop_forever :
  (forall w req, exists r p,
      upstream w req = Resolved r /\ is_page r p /\ is_set (next p) = true) ->
  forall fuel allRecords offset w,
    exists w',
      paginate engine fetchPage fuel (allRecords, offset) w = (OutOfFuel, w')
      /\ List.length w' = List.length w + fuel.
Proof.
  intros Hup fuel. induction fuel as [| fuel IH]; intros allRecords offset w.
  - exists w. split; [reflexivity | lia].
  - destruct (Hup w (request_for offset)) as (r & p & Hr & Hpage & Hnext).
    rewrite paginate_S.
    rewrite (step_page engine upstream request_for details fetchPage fetchPage_eq
               _ _ _ _ _ Hr Hpage).
    cbn [snd]. rewrite is_set_token_json, Hnext.
    destruct (IH (allRecords ++ items p) (token_json (next p))
                (w ++ [request_for offset])) as (w' & -> & Hlen).
    exists w'. split; [reflexivity |].
    rewrite Hlen, length_app. simpl. lia.
Qed.

(** An iteration that throws after a linked prefix ends the loop with what
    it threw. *)
Lemma loop_step_throws (pages : list Page) (e : JsError) (w'' : World) :
  linked pages = true ->
  forall w allRecords offset fuel,
    serves upstream request_for w offset pages ->
    page_step engine fetchPage
      (allRecords ++ List.concat (map items pages), offset_after offset pages)
      (w ++ requests_for request_for offset pages) = (Throws e, w'') ->
    List.length pages < fuel ->
    paginate engine fetchPage fuel (allRecords, offset) w = (Throws e, w'').
Proof.
  intros Hlinked w allRecords offset fuel Hserves Hstep Hfuel.
  replace fuel with (List.length pages + S (fuel - S (List.length pages))) by lia.
  rewrite (loop_linked engine upstream request_for details fetchPage fetchPage_eq
             _ Hlinked _ _ _ _ Hserves), paginate_S.
  now rewrite Hstep.
Qed.

End PaginationMore.

Lemma fetchAllRecords_requests (d : Deployment) (engine : Engine)
      (upstream : Upstream) (process_env : Env) (fuel : nat) :
  exists tokens,
    snd (fetchAllRecords d engine upstream process_env fuel [])
    = map (page_request d process_env) tokens.
Proof.
  rewrite fetchAllRecords_eq.
  destruct (paginate engine (fetchPage d engine upstream process_env) fuel ([], JNull) [])
    as [o w'] eqn:Hrun.
  destruct (loop_requests engine upstream _ _ _
              (fetchPage_eq d engine upstream process_env) _ _ _ _ _ _ Hrun)
    as [tokens ->].
  exists tokens. now destruct o.
Qed.

Lemma is_set_inv (v : option string) :
  is_set v = true -> exists s, v = Some s /\ s <> "".
Proof.
  destruct v as [s |]; [| discriminate]. simpl.
  intros H. exists s. split; [reflexivity |].
  apply negb_true_iff in H. now apply String.eqb_neq.
Qed.

(** X5.  Every request the handler sends to the upstream is a GET of the
    list endpoint of the configured base and table on [api.airtable.com],
    with the configured key as bearer token: both credentials are set (never
    [undefined] or empty) in any request that goes out. *)
Theorem handler_requests (d : Deployment) (engine : Engine) (upstream : Upstream)
        (process_env : Env) (fuel : nat) (req : Req) (res : Res) (sent : Request) :
  In sent (snd (handler d engine upstream process_env fuel req res [])) ->
  exists key base query,
    process_env "AIRTABLE_API_KEY" = Some key /\ key <> ""
    /\ process_env "AIRTABLE_BASE_ID" = Some base /\ base <> ""
    /\ fetch_method sent = "GET"
    /\ fetch_headers sent
       = [("Authorization", "Bearer " +++ key); ("Content-Type", "application/json")]
    /\ url sent
       = "https://api.airtable.com/v0/" +++ base +++ "/"
         +++ table_segment d process_env +++ "?" +++ query.
Proof.
  intros Hin.
  destruct (admitted process_env req) eqn:Hadmitted.
  - pose proof Hadmitted as Hset. unfold admitted in Hset.
    apply andb_prop in Hset as [Hset Hbase]. apply andb_prop in Hset as [_ Hkey].
    destruct (is_set_inv _ Hkey) as (key & Ekey & Hkey').
    destruct (is_set_inv _ Hbase) as (base & Ebase & Hbase').
    rewrite (handler_admitted d engine upstream process_env fuel req res [] Hadmitted)
      in Hin.
    destruct (fetchAllRecords_requests d engine upstream process_env fuel)
      as [tokens Hw].
    assert (In sent (map (page_request d process_env) tokens)) as Hsent.
    { rewrite <- Hw.
      now destruct (fetchAllRecords d engine upstream process_env fuel [])
        as [[allRecords | e |] w']. }
    apply in_map_iff in Hsent as (token & <- & _).
    exists key, base. eexists. repeat split; try assumption.
    + cbn [fetch_headers page_request]. now rewrite Ekey.
    + cbn [url page_request]. rewrite buildAirtableURL_eq. unfold endpoint.
      rewrite Ebase. cbn [template]. rewrite !append_assoc. reflexivity.
  - destruct (handler_not_admitted d engine upstream process_env fuel req res []
                Hadmitted) as (code & content & Heq & _).
    rewrite Heq in Hin. contradiction.
Qed.

Lemma handler_requests_witness :
  exists key base query,
    production "AIRTABLE_API_KEY" = Some key /\ key <> ""
    /\ production "AIRTABLE_BASE_ID" = Some base /\ base <> ""
    /\ fetch_method (page_request Vercel production (JStr "itr1/rec2")) = "GET"
    /\ fetch_headers (page_request Vercel production (JStr "itr1/rec2"))
       = [("Authorization", "Bearer " +++ key); ("Content-Type", "application/json")]
    /\ url (page_request Vercel production (JStr "itr1/rec2"))
       = "https://api.airtable.com/v0/" +++ base +++ "/"
         +++ table_segment Vercel production +++ "?" +++ query.
Proof.
  apply (handler_requests Vercel v8 two_pages production 5 get fresh_res
           (page_request Vercel production (JStr "itr1/rec2"))).
  vm_compute. right. left. reflexivity.
Defined.

Import MoreSamples.

(** X6.  The loop has no cap on the number of pages: against an upstream
    whose every answer is a page with a non-empty token, [fetchAllRecords]
    never returns (n iterations issue n requests and call for another), and
    neither does the handler. *)
Theorem fetchAllRecords_unbounded (d : Deployment) (engine : Engine)
        (upstream : Upstream) (process_env : Env) (fuel : nat) (req : Req) (res : Res) :
  (forall w sent, exists r p,
      upstream w sent = Resolved r /\ is_page r p /\ is_set (next p) = true) ->
  (exists w',
      fetchAllRecords d engine upstream process_env fuel [] = (OutOfFuel, w')
      /\ List.length w' = fuel)
  /\ (admitted process_env req = true ->
      fst (handler d engine upstream process_env fuel req res []) = OutOfFuel).
Proof.
  intros Hup.
  destruct (loop_forever engine upstream _ _ _
              (fetchPage_eq d engine upstream process_env) Hup fuel [] JNull [])
    as (w' & Hrun & Hlen).
  assert (fetchAllRecords d engine upstream process_env fuel [] = (OutOfFuel, w'))
    as Hfetch by (rewrite fetchAllRecords_eq, Hrun; reflexivity).
  split.
  - exists w'. now split.
  - intros Hadmitted.
    now rewrite (handler_admitted d engine upstream process_env fuel req res []
                   Hadmitted), Hfetch.
Qed.

Lemma fetchAllRecords_unbounded_witness :
  (exists w',
      fetchAllRecords Vercel v8 always_more production 50 [] = (OutOfFuel, w')
      /\ List.length w' = 50)
  /\ (admitted production get = true ->
      fst (handler Vercel v8 always_more production 50 get fresh_res []) = OutOfFuel).
Proof.
  apply (fetchAllRecords_unbounded Vercel v8 always_more production 50 get fresh_res).
  intros w sent. exists (page_response p1), p1.
  split; [reflexivity |]. split; [| reflexivity].
  split; [reflexivity |]. eexists. repeat split.
Defined.

(** X7.  Nothing is requested after a failure, and nothing is retried: in
    any run, if the answer to a request is a rejection or a non-success
    status, that request is the last one. *)
Theorem no_request_after_failure (d : Deployment) (engine : Engine)
        (upstream : Upstream) (process_env : Env) (fuel : nat) (i : nat)
        (sent : Request) :
  let w' := snd (fetchAllRecords d engine upstream process_env fuel []) in
  nth_error w' i = Some sent ->
  (forall r, upstream (firstn i w') sent = Resolved r -> ok r = false) ->
  nth_error w' (S i) = None /\ List.length w' = S i.
Proof.
  intros w' Hsent Hfailed.
  assert (nth_error w' (S i) = None) as Hnone.
  { destruct (nth_error w' (S i)) as [next_sent |] eqn:Hnext; [| reflexivity].
    destruct (fetchAllRecords_token_passed d engine upstream process_env fuel i
                next_sent Hnext)
      as (sent0 & r & fields & token & Hsent0 & Hup & Hok & _).
    fold w' in Hsent0, Hup.
    assert (sent0 = sent) as -> by congruence.
    rewrite (Hfailed r Hup) in Hok. discriminate. }
  split; [exact Hnone |].
  apply nth_error_None in Hnone.
  assert (i < List.length w') by (apply nth_error_Some; congruence).
  lia.
Qed.

Lemma no_request_after_failure_witness :
  let w' := snd (fetchAllRecords Serverless v8
                   (scripted [Resolved (page_response p1); Resolved rate_limited;
                              Resolved (page_response p2)]) production 9 []) in
  nth_error w' 2 = None /\ List.length w' = 2.
Proof.
  apply (no_request_after_failure Serverless v8
           (scripted [Resolved (page_response p1); Resolved rate_limited;
                      Resolved (page_response p2)]) production 9 1
           (page_request Serverless production (JStr "itr1/rec2"))).
  - reflexivity.
  - intros r. vm_compute. now intros [= <-].
Defined.


Lemma truthy_false (v : JSON) : truthy v = false <-> In v falsy_values.
Proof.
  unfold falsy_values. split.
  - destruct v as [| [] | repr | s | l | fields]; simpl; try discriminate; auto.
    + intros H. apply negb_false_iff, String.eqb_eq in H. subst. tauto.
    + intros H. apply negb_false_iff, String.eqb_eq in H. subst. tauto.
  - simpl. intros [<- | [<- | [<- | [<- | []]]]]; reflexivity.
Qed.

(** X9.  In a successful response, [records] and [offset] count as absent
    not only when the property is missing but also when its value is null,
    false, 0 or the empty string: the page is then read as empty and last,
    without error. *)
Theorem fetchPage_falsy_fields (d : Deployment) (engine : Engine)
        (upstream : Upstream) (process_env : Env) (offset : JSON) (w : World)
        (r : Response) (fields : list (string * JSON)) :
  upstream w (page_request d process_env offset) = Resolved r ->
  ok r = true ->
  parsed r = Some (JObj fields) ->
  (forall v, assoc "records" fields = Some v -> In v falsy_values) ->
  (forall t, assoc "offset" fields = Some t -> In t falsy_values) ->
  fetchPage d engine upstream process_env offset w
  = (Returns empty_PageData, w ++ [page_request d process_env offset]).
Proof.
  intros Hup Hok Hparsed Hrecords Hoffset.
  rewrite fetchPage_eq. unfold page_fetch, read_page.
  rewrite Hup, Hok, Hparsed. unfold empty_PageData.
  destruct (assoc "records" fields) as [v |];
    destruct (assoc "offset" fields) as [t |]; cbn [or_else to_bool];
    try rewrite (proj2 (truthy_false v) (Hrecords v eq_refl));
    try rewrite (proj2 (truthy_false t) (Hoffset t eq_refl));
    reflexivity.
Qed.

Lemma fetchPage_falsy_fields_witness :
  fetchPage Vercel v8 (scripted [Resolved falsy_body]) production JNull []
  = (Returns empty_PageData, [] ++ [page_request Vercel production JNull]).
Proof.
  apply (fetchPage_falsy_fields Vercel v8 (scripted [Resolved falsy_body])
           production JNull [] falsy_body
           [("records", JNull); ("offset", JNum "0")]); try reflexivity.
  - intros v [= <-]. simpl. tauto.
  - intros t [= <-]. simpl. tauto.
Defined.

(** X10.  A successful response whose body is valid JSON but neither an
    object nor null (an array, a string, a number, a boolean) is taken for
    an empty last page: the handler answers 200 with no records after that
    single request. *)
Theorem handler_bare_body (d : Deployment) (engine : Engine) (upstream : Upstream)
        (process_env : Env) (fuel : nat) (req : Req) (res : Res) (r : Response)
        (data : JSON) :
  admitted process_env req = true ->
  upstream [] (page_request d process_env JNull) = Resolved r ->
  ok r = true ->
  parsed r = Some data ->
  bare_value data = true ->
  1 <= fuel ->
  handler d engine upstream process_env fuel req res []
  = (Returns (res_json (res_status (setCORSHeaders d res) 200)
                (success_body d process_env [])),
     [page_request d process_env JNull]).
Proof.
  intros Hadmitted Hup Hok Hparsed Hbare Hfuel.
  destruct fuel as [| fuel]; [lia |].
  rewrite (handler_admitted d engine upstream process_env _ req res [] Hadmitted).
  rewrite fetchAllRecords_eq, paginate_S. unfold page_step, bind.
  rewrite fetchPage_eq. unfold page_fetch, read_page.
  rewrite Hup, Hok, Hparsed.
  destruct data; try discriminate Hbare; reflexivity.
Qed.

Lemma handler_bare_body_witness :
  handler Vercel v8 (scripted [Resolved array_body]) production 2 get fresh_res []
  = (Returns (res_json (res_status (setCORSHeaders Vercel fresh_res) 200)
                (success_body Vercel production [])),
     [page_request Vercel production JNull]).
Proof.
  apply (handler_bare_body Vercel v8 (scripted [Resolved array_body]) production 2
           get fresh_res array_body (JArr [])); try reflexivity.
  lia.
Defined.

(** X11.  A response with a success status that cannot be read, because its
    body is not JSON or is [null], fails the whole fetch like a refusal
    does: [fetchAllRecords] throws the parser's or the engine's error
    (not an [Airtable API error]), no request follows, and the handler
    answers with the failure body that carries that error's message. *)
Theorem handler_unreadable_body (d : Deployment) (engine : Engine)
        (upstream : Upstream) (process_env : Env) (prefix : list Page)
        (r : Response) (fuel : nat) (req : Req) (res : Res) :
  admitted process_env req = true ->
  linked prefix = true ->
  serves upstream (page_request d process_env) [] JNull prefix ->
  upstream (requests_for (page_request d process_env) JNull prefix)
    (page_request d process_env (offset_after JNull prefix)) = Resolved r ->
  ok r = true ->
  parsed r = None \/ parsed r = Some JNull ->
  List.length prefix < fuel ->
  exists w',
    fetchAllRecords d engine upstream process_env fuel []
    = (Throws (unreadable_error engine r), w')
    /\ List.length w' = S (List.length prefix)
    /\ handler d engine upstream process_env fuel req res []
       = (Returns (res_json
                     (res_status (setCORSHeaders d res)
                        (fst (failure_class d (message (unreadable_error engine r)))))
                     (failure_body d process_env (unreadable_error engine r))),
          w').
Proof.
  intros Hadmitted Hlinked Hserves Hup Hok Hparsed Hfuel.
  assert (fetchPage d engine upstream process_env (offset_after JNull prefix)
            (requests_for (page_request d process_env) JNull prefix)
          = (Throws (unreadable_error engine r),
             requests_for (page_request d process_env) JNull prefix
             ++ [page_request d process_env (offset_after JNull prefix)])) as Hfetch.
  { rewrite fetchPage_eq. unfold page_fetch, read_page, unreadable_error.
    rewrite Hup, Hok. now destruct Hparsed as [-> | ->]. }
  pose proof (fetchAllRecords_throws d engine upstream process_env prefix _ _ fuel
                Hlinked Hserves Hfetch Hfuel) as Hall.
  eexists. split; [exact Hall |]. split.
  - rewrite length_app, requests_for_length. simpl. lia.
  - now rewrite (handler_admitted d engine upstream process_env fuel req res []
                   Hadmitted), Hall.
Qed.

Lemma handler_unreadable_body_witness :
  exists w',
    fetchAllRecords Vercel v8
      (scripted [Resolved (page_response p1); Resolved html_body]) production 5 []
    = (Throws (new_SyntaxError v8 "Unexpected end of JSON input"), w')
    /\ List.length w' = 2
    /\ handler Vercel v8
         (scripted [Resolved (page_response p1); Resolved html_body]) production 5
         get fresh_res []
       = (Returns (res_json (res_status (setCORSHeaders Vercel fresh_res) 500)
                     (JObj [("success", JBool false);
                            ("error", JStr "Internal server error");
                            ("message", JStr "Unexpected end of JSON input")])),
          w').
Proof.
  apply (handler_unreadable_body Vercel v8
           (scripted [Resolved (page_response p1); Resolved html_body]) production
           [p1] html_body 5 get fresh_res); try reflexivity.
  - simpl. split; [serve_page | exact I].
  - left. reflexivity.
  - simpl. lia.
Defined.

(** X12.  A page whose [records] is a truthy value that cannot be iterated
    (an object, a number, [true]) makes the spread in [push] throw: the
    fetch fails with the engine's error for that value, after the request
    for that page and without another one. *)
Theorem fetchAllRecords_records_not_iterable (d : Deployment) (engine : Engine)
        (upstream : Upstream) (process_env : Env) (prefix : list Page)
        (r : Response) (fields : list (string * JSON)) (v : JSON) (fuel : nat) :
  linked prefix = true ->
  serves upstream (page_request d process_env) [] JNull prefix ->
  upstream (requests_for (page_request d process_env) JNull prefix)
    (page_request d process_env (offset_after JNull prefix)) = Resolved r ->
  ok r = true ->
  parsed r = Some (JObj fields) ->
  assoc "records" fields = Some v ->
  truthy v = true ->
  iterable v = false ->
  List.length prefix < fuel ->
  exists w',
    fetchAllRecords d engine upstream process_env fuel []
    = (Throws (new_TypeError engine (not_iterable_message engine v)), w')
    /\ List.length w' = S (List.length prefix).
Proof.
  intros Hlinked Hserves Hup Hok Hparsed Hrecords Htruthy Hiter Hfuel.
  eexists. split.
  - rewrite fetchAllRecords_eq.
    rewrite (loop_step_throws engine upstream _ _ _
               (fetchPage_eq d engine upstream process_env) prefix
               (new_TypeError engine (not_iterable_message engine v))
               (requests_for (page_request d process_env) JNull prefix
                ++ [page_request d process_env (offset_after JNull prefix)])
               Hlinked [] [] JNull fuel Hserves); [reflexivity | | exact Hfuel].
    unfold page_step, bind. rewrite fetchPage_eq. unfold page_fetch, read_page.
    cbn [app]. rewrite Hup, Hok, Hparsed, Hrecords.
    cbn [PageData.records or_else]. rewrite Htruthy.
    destruct v; try discriminate Hiter; try discriminate Htruthy; reflexivity.
  - rewrite length_app, requests_for_length. simpl. lia.
Qed.

Lemma fetchAllRecords_records_not_iterable_witness :
  exists w',
    fetchAllRecords Serverless v8 (scripted [Resolved object_records]) production 3 []
    = (Throws (new_TypeError v8
                 (not_iterable_message v8 (JObj [("r1", r1)]))), w')
    /\ List.length w' = 1.
Proof.
  apply (fetchAllRecords_records_not_iterable Serverless v8
           (scripted [Resolved object_records]) production [] object_records
           [("records", JObj [("r1", r1)])] (JObj [("r1", r1)]) 3);
    try reflexivity.
  simpl. lia.
Defined.



(** ** Status of a failure *)

Lemma includes_middle (a sub b : string) : includes (a +++ sub +++ b) sub = true.
Proof. apply includes_spec. now exists a, b. Qed.

(** X14.  An upstream 401 is always answered with 401, on whatever page it
    occurs and whatever its body says, in both files: the message built for
    it holds [401], and the rule for [401] comes first. *)
Theorem handler_upstream_401 (d : Deployment) (engine : Engine) (upstream : Upstream)
        (process_env : Env) (prefix : list Page) (r : Response) (fuel : nat)
        (req : Req) (res : Res) :
  admitted process_env req = true ->
  linked prefix = true ->
  serves upstream (page_request d process_env) [] JNull prefix ->
  upstream (requests_for (page_request d process_env) JNull prefix)
    (page_request d process_env (offset_after JNull prefix)) = Resolved r ->
  status r = 401%N ->
  List.length prefix < fuel ->
  exists res' w',
    handler d engine upstream process_env fuel req res [] = (Returns res', w')
    /\ statusCode res' = 401%N
    /\ body_field "error" res' = Some (JStr (unauthorized_category d))
    /\ List.length w' = S (List.length prefix).
Proof.
  intros Hadmitted Hlinked Hserves Hup Hstatus Hfuel.
  assert (ok r = false) as Hok by (unfold ok; now rewrite Hstatus).
  set (e := api_error engine (error_details d) r).
  assert (fetchPage d engine upstream process_env (offset_after JNull prefix)
            (requests_for (page_request d process_env) JNull prefix)
          = (Throws e,
             requests_for (page_request d process_env) JNull prefix
             ++ [page_request d process_env (offset_after JNull prefix)])) as Hfetch.
  { rewrite fetchPage_eq. unfold page_fetch, read_page. now rewrite Hup, Hok. }
  assert (includes (message e) "401" = true) as Hincl.
  { subst e. unfold api_error. cbn [message new_Error]. rewrite Hstatus.
    change (string_of_N 401) with "401".
    apply (includes_middle "Airtable API error (" "401"). }
  eexists _, _. split.
  - rewrite (handler_admitted d engine upstream process_env fuel req res [] Hadmitted).
    now rewrite (fetchAllRecords_throws d engine upstream process_env prefix e _ fuel
                   Hlinked Hserves Hfetch Hfuel).
  - cbn [statusCode res_json res_status]. unfold body_field, failure_body.
    cbn [body res_json assoc app String.eqb Ascii.eqb Bool.eqb].
    split; [| split].
    + destruct d; [rewrite failure_class_serverless | rewrite failure_class_vercel];
        now rewrite Hincl.
    + destruct d; [rewrite failure_class_serverless | rewrite failure_class_vercel];
        now rewrite Hincl.
    + rewrite length_app, requests_for_length. simpl. lia.
Qed.

Lemma handler_upstream_401_witness :
  exists res' w',
    handler Vercel v8 (scripted [Resolved (page_response p1); Resolved unauthorized])
      production 3 get fresh_res [] = (Returns res', w')
    /\ statusCode res' = 401%N
    /\ body_field "error" res' = Some (JStr (unauthorized_category Vercel))
    /\ List.length w' = 2.
Proof.
  apply (handler_upstream_401 Vercel v8
           (scripted [Resolved (page_response p1); Resolved unauthorized])
           production [p1] unauthorized 3 get fresh_res); try reflexivity.
  - simpl. split; [serve_page | exact I].
  - simpl. lia.
Defined.

(** X15.  The two handlers give the same status, and the same message, to
    every error, except that where the Vercel file answers 429,
    [serverless-airtable.js], which has no rule for it, answers 500. *)
Theorem failure_status_across_deployments (engine : Engine) (process_env : Env)
        (fuel : nat) (req : Req) (res : Res) (e : JsError) :
  admitted process_env req = true ->
  1 <= fuel ->
  exists s v,
    fst (handler Serverless engine (rejecting e) process_env fuel req res [])
    = Returns s
    /\ fst (handler Vercel engine (rejecting e) process_env fuel req res [])
       = Returns v
    /\ statusCode s = (if (statusCode v =? 429)%N then 500%N else statusCode v)
    /\ body_field "message" s = Some (JStr (message e))
    /\ body_field "message" v = Some (JStr (message e)).
Proof.
  intros Hadmitted Hfuel. destruct fuel as [| fuel]; [lia |].
  assert (forall d, fetchAllRecords d engine (rejecting e) process_env (S fuel) []
                    = (Throws e, [page_request d process_env JNull])) as Hfetch.
  { intros d. rewrite fetchAllRecords_eq, paginate_S. unfold page_step, bind.
    now rewrite fetchPage_eq. }
  eexists _, _.
  rewrite !(handler_admitted _ engine (rejecting e) process_env _ req res []
              Hadmitted), !Hfetch.
  split; [reflexivity |]. split; [reflexivity |].
  cbn [statusCode res_json res_status]. split; [| split; reflexivity].
  rewrite failure_class_serverless, failure_class_vercel.
  repeat match goal with
         | |- context [if ?a || ?b then _ else _] => destruct (a || b); [reflexivity |]
         end.
  reflexivity.
Qed.

Lemma failure_status_across_deployments_witness :
  exists s v,
    fst (handler Serverless v8
           (rejecting (new_Error v8 "429 Too Many Requests")) production 1 get
           fresh_res []) = Returns s
    /\ fst (handler Vercel v8
              (rejecting (new_Error v8 "429 Too Many Requests")) production 1 get
              fresh_res []) = Returns v
    /\ statusCode s = (if (statusCode v =? 429)%N then 500%N else statusCode v)
    /\ body_field "message" s = Some (JStr "429 Too Many Requests")
    /\ body_field "message" v = Some (JStr "429 Too Many Requests").
Proof.
  apply (failure_status_across_deployments v8 production 1 get fresh_res
           (new_Error v8 "429 Too Many Requests")).
  - reflexivity.
  - lia.
Defined.

(** ** Request URLs *)




(** X17.  The second URL of the connection test in [test-api.js] is, for
    every configuration, exactly the URL the Vercel function requests for
    the first page; the first URL is the same endpoint with the filter and
    the page size only. *)
Theorem test_api_urls (process_env : Env) :
  TestApi.url2 process_env = buildAirtableURL Vercel process_env JNull
  /\ TestApi.url1 process_env
     = endpoint Vercel process_env +++ "?"
       +++ URLSearchParams_toString
             [("filterByFormula", FILTER_FORMULA); ("pageSize", string_of_N PAGE_SIZE)].
Proof.
  rewrite buildAirtableURL_eq.
  unfold TestApi.url1, TestApi.url2, endpoint, table_segment,
    TestApi.AIRTABLE_TABLE_ID, ApiAirtable.AIRTABLE_TABLE_ID, TestApi.AIRTABLE_BASE_ID.
  rewrite !append_assoc. split; reflexivity.
Qed.

(** ** The local test script *)

Lemma script_fetchPage_eq (engine : Engine) (upstream : Upstream)
      (process_env : Env) (offset : JSON) (w : World) :
  LocalTest.fetchPage engine upstream process_env offset w
  = page_fetch engine upstream (script_request process_env) text offset w.
Proof.
  unfold LocalTest.fetchPage, page_fetch, bind, fetch, script_request,
    LocalTest.AIRTABLE_API_KEY.
  page_fetch_cases upstream w.
Qed.

Lemma script_fetchAllRecords_eq (engine : Engine) (upstream : Upstream)
      (process_env : Env) (fuel : nat) (w : World) :
  LocalTest.fetchAllRecords engine upstream process_env fuel w
  = outcome_map fst
      (paginate engine (LocalTest.fetchPage engine upstream process_env) fuel
         ([], JNull) w).
Proof.
  unfold LocalTest.fetchAllRecords, outcome_map, bind, paginate.
  match goal with
  | |- context [do_while ?b ?c fuel ?s w] =>
      change (do_while b c fuel s w)
        with (do_while (page_step engine
                          (LocalTest.fetchPage engine upstream process_env))
                c fuel s w)
  end.
  now destruct (do_while _ _ fuel _ w) as [[vars | e |] w'].
Qed.

(** With both credentials set, the script answers with the collection and
    its summary, or with the failure body of what was thrown: by the fetch,
    or by the summary of a first record that has no [fields]. *)
Lemma script_run (engine : Engine) (to_object_message : option JSON -> string)
      (upstream : Upstream) (process_env : Env) (fuel : nat) (w : World) :
  is_set (process_env "AIRTABLE_API_KEY") = true ->
  is_set (process_env "AIRTABLE_BASE_ID") = true ->
  LocalTest.runServerlessFunction engine to_object_message upstream process_env fuel w
  = match LocalTest.fetchAllRecords engine upstream process_env fuel w with
    | (Returns allRecords, w') =>
        (Returns
           match allRecords with
           | first :: _ =>
               if summarizable first then script_success allRecords
               else script_failure (summary_error engine to_object_message first)
           | [] => script_success allRecords
           end, w')
    | (Throws e, w') => (Returns (script_failure e), w')
    | (OutOfFuel, w') => (OutOfFuel, w')
    end.
Proof.
  intros Hkey Hbase.
  unfold LocalTest.runServerlessFunction, LocalTest.AIRTABLE_API_KEY,
    LocalTest.AIRTABLE_BASE_ID.
  rewrite Hkey, Hbase. cbn [LocalTest.mockReq method String.eqb Ascii.eqb Bool.eqb negb].
  unfold try_catch. unfold bind at 1.
  destruct (LocalTest.fetchAllRecords engine upstream process_env fuel w)
    as [[allRecords | e |] w']; try reflexivity.
  destruct allRecords as [| first rest]; [reflexivity |].
  destruct first as [| b | repr | s | l | props]; try reflexivity.
  unfold summarizable, summary_error, script_success, field_summary, fields_of,
    LocalTest.show_sample, bind.
  cbn [List.length Nat.ltb Nat.leb nth get_property ret].
  destruct (assoc "fields" props) as [[| b | repr | s | l | fields] |];
    try reflexivity;
    cbn [LocalTest.Object_keys ret keys_of];
    match goal with
    | |- context [match List.length ?k with O => false | S _ => true end] =>
        destruct k
    end; reflexivity.
Qed.

Import ScriptSamples.



(** X19.  The script needs more than the function does to report success:
    after a chain of pages is fetched whole, it answers 200, with the keys
    of the first record's [fields] under [fieldSummary], only if the first
    record is not null and has a [fields] that is not null; otherwise it
    answers with a failure body for the engine's error, without any record,
    though every page was fetched.  An empty collection is a success with a
    null summary. *)
Theorem script_summary (engine : Engine) (to_object_message : option JSON -> string)
        (upstream : Upstream) (process_env : Env) (pages : list Page) (fuel : nat) :
  is_set (process_env "AIRTABLE_API_KEY") = true ->
  is_set (process_env "AIRTABLE_BASE_ID") = true ->
  chain pages = true ->
  serves upstream (script_request process_env) [] JNull pages ->
  List.length pages <= fuel ->
  let allRecords := List.concat (map items pages) in
  exists res' w',
    LocalTest.runServerlessFunction engine to_object_message upstream process_env
      fuel [] = (Returns res', w')
    /\ List.length w' = List.length pages
    /\ (allRecords = [] ->
        statusCode res' = 200%N
        /\ body_field "records" res' = Some (JArr [])
        /\ body_field "fieldSummary" res' = Some JNull)
    /\ (forall first rest fields,
           allRecords = first :: rest -> summarizable first = true ->
           fields_of first = Some fields ->
           statusCode res' = 200%N
           /\ body_field "records" res' = Some (JArr allRecords)
           /\ body_field "fieldSummary" res'
              = Some (JObj [("availableFields", JArr (map JStr (keys_of fields)));
                            ("sampleRecord", first)]))
    /\ (forall first rest,
           allRecords = first :: rest -> summarizable first = false ->
           res' = script_failure (summary_error engine to_object_message first)
           /\ statusCode res' <> 200%N
           /\ body_field "success" res' = Some (JBool false)
           /\ body_field "records" res' = None).
Proof.
  intros Hkey Hbase Hchain Hserves Hfuel allRecords.
  pose proof (loop_chain engine upstream _ _ _
                (script_fetchPage_eq engine upstream process_env)
                pages Hchain [] [] JNull fuel Hserves Hfuel) as Hloop.
  eexists _, _. split.
  - rewrite (script_run engine to_object_message upstream process_env fuel []
               Hkey Hbase).
    rewrite script_fetchAllRecords_eq, Hloop. cbn [outcome_map fst app].
    reflexivity.
  - fold allRecords. split; [apply requests_for_length |].
    split; [| split].
    + intros ->. repeat split.
    + intros first rest fields -> Hsum Hfields. rewrite Hsum.
      unfold body_field, script_success, field_summary.
      cbn [body res_json statusCode res_status assoc String.eqb Ascii.eqb Bool.eqb].
      now rewrite Hfields.
    + intros first rest -> Hsum. rewrite Hsum.
      repeat split.
      unfold script_failure, script_status. cbn [statusCode res_json res_status].
      repeat match goal with
             | |- context [if ?a then _ else _] => destruct a; [discriminate |]
             end.
      discriminate.
Qed.

Lemma script_summary_witness :
  exists res' w',
    LocalTest.runServerlessFunction v8 to_object one_named_page production 2 []
    = (Returns res', w')
    /\ List.length w' = 1
    /\ statusCode res' = 200%N
    /\ body_field "records" res' = Some (JArr [named; r2])
    /\ body_field "fieldSummary" res'
       = Some (JObj [("availableFields", JArr [JStr "Name"; JStr "Status"]);
                     ("sampleRecord", named)]).
Proof.
  destruct (script_summary v8 to_object one_named_page production [named_page] 2)
    as (res' & w' & Hrun & Hlen & _ & Hsummary & _).
  - reflexivity.
  - reflexivity.
  - reflexivity.
  - simpl. split; [serve_page | exact I].
  - simpl. lia.
  - exists res', w'. split; [exact Hrun |]. split; [exact Hlen |].
    apply (Hsummary named [r2]
             (JObj [("Name", JStr "A"); ("Status", JStr "Todo")]));
      reflexivity.
Defined.

Lemma script_status_by_word (detail : string) :
  existsb (includes detail) status_words = false ->
  script_status detail = fst (failure_class Serverless detail).
Proof.
  cbn [existsb status_words]. rewrite orb_false_r. intros H.
  repeat (apply orb_false_elim in H as [?H H]).
  rewrite failure_class_serverless. unfold script_status. cbn [fst].
  now rewrite H, H0, H1, H2, !orb_false_r.
Qed.

(** X20.  When its fetch fails the script answers with the category
    [Failed to fetch Airtable records], the message of the error, and a
    status read from the four codes 401, 403, 404 and 422 alone; that is the
    status [serverless-airtable.js] gives too, unless the message holds one
    of the words that file also looks for. *)
Theorem script_failure_response (engine : Engine)
        (to_object_message : option JSON -> string) (upstream : Upstream)
        (process_env : Env) (fuel : nat) (w w' : World) (e : JsError) :
  is_set (process_env "AIRTABLE_API_KEY") = true ->
  is_set (process_env "AIRTABLE_BASE_ID") = true ->
  LocalTest.fetchAllRecords engine upstream process_env fuel w = (Throws e, w') ->
  LocalTest.runServerlessFunction engine to_object_message upstream process_env fuel w
  = (Returns
       (res_json (res_status script_res (script_status (message e)))
          (JObj [("success", JBool false);
                 ("error", JStr "Failed to fetch Airtable records");
                 ("message", JStr (message e))])), w')
  /\ In (script_status (message e)) [401; 403; 404; 422; 500]%N
  /\ (existsb (includes (message e)) status_words = false ->
      script_status (message e) = fst (failure_class Serverless (message e))).
Proof.
  intros Hkey Hbase Hfetch. split; [| split].
  - now rewrite (script_run engine to_object_message upstream process_env fuel w
                   Hkey Hbase), Hfetch.
  - unfold script_status.
    repeat match goal with
           | |- context [if ?a then _ else _] => destruct a
           end; simpl; tauto.
  - apply script_status_by_word.
Qed.

Lemma script_failure_response_witness :
  LocalTest.runServerlessFunction v8 to_object (scripted [Resolved rate_limited])
    production 3 []
  = (Returns
       (res_json (res_status script_res 500)
          (JObj [("success", JBool false);
                 ("error", JStr "Failed to fetch Airtable records");
                 ("message", JStr "Airtable API error (429): slow down")])),
     [script_request production JNull]).
Proof.
  apply (script_failure_response v8 to_object (scripted [Resolved rate_limited])
           production 3 [] [script_request production JNull]
           (new_Error v8 "Airtable API error (429): slow down"));
    reflexivity.
Defined.

(** ** Configuration and disclosure *)

Lemma failure_category_not_configuration (d : Deployment) (detail : string) :
  snd (failure_class d detail) <> "Server configuration error".
Proof.
  destruct d; [rewrite failure_class_serverless | rewrite failure_class_vercel];
  repeat match goal with
         | |- context [if ?a || ?b then _ else _] => destruct (a || b)
         end; discriminate.
Qed.

(** X21.  The category [Server configuration error] is answered only to a
    GET made while the API key or the base id is not set, and then without
    any request to the upstream.  The table id is never the cause: in the
    Vercel file it is never empty, an unset or empty [AIRTABLE_TABLE_ID]
    giving the built-in table. *)
Theorem configuration_error_cause (d : Deployment) (engine : Engine)
        (upstream : Upstream) (process_env : Env) (fuel : nat) (req : Req)
        (res res' : Res) (w w' : World) :
  handler d engine upstream process_env fuel req res w = (Returns res', w') ->
  body_field "error" res' = Some (JStr "Server configuration error") ->
  method req = "GET"
  /\ (is_set (process_env "AIRTABLE_API_KEY") = false
      \/ is_set (process_env "AIRTABLE_BASE_ID") = false)
  /\ w' = w
  /\ statusCode res' = 500%N
  /\ ApiAirtable.AIRTABLE_TABLE_ID process_env <> ""
  /\ (is_set (process_env "AIRTABLE_TABLE_ID") = false ->
      ApiAirtable.AIRTABLE_TABLE_ID process_env = "tblDrUWfwkwMQM9yR").
Proof.
  intros Hrun Herror.
  assert (ApiAirtable.AIRTABLE_TABLE_ID process_env <> "") as Htable
      by (apply String.eqb_neq, AIRTABLE_TABLE_ID_set).
  assert (is_set (process_env "AIRTABLE_TABLE_ID") = false ->
          ApiAirtable.AIRTABLE_TABLE_ID process_env = "tblDrUWfwkwMQM9yR") as Hfallback
      by (unfold ApiAirtable.AIRTABLE_TABLE_ID; now intros ->).
  destruct (admitted process_env req) eqn:Hadmitted.
  - exfalso.
    rewrite (handler_admitted d engine upstream process_env fuel req res w Hadmitted)
      in Hrun.
    destruct (fetchAllRecords d engine upstream process_env fuel w)
      as [[allRecords | e |] w0]; try discriminate Hrun;
      injection Hrun as <- <-.
    + discriminate Herror.
    + unfold body_field, failure_body in Herror.
      cbn [body res_json assoc app String.eqb Ascii.eqb Bool.eqb] in Herror.
      injection Herror as Herror.
      now apply (failure_category_not_configuration d (message e)).
  - revert Hrun. unfold admitted in Hadmitted.
    destruct d; unfold handler, ServerlessAirtable.handler, ApiAirtable.handler,
      ServerlessAirtable.AIRTABLE_API_KEY, ServerlessAirtable.AIRTABLE_BASE_ID,
      ApiAirtable.AIRTABLE_API_KEY, ApiAirtable.AIRTABLE_BASE_ID.
    all: destruct (method req =? "OPTIONS")%string;
      [intros [= <- <-]; discriminate Herror |].
    all: destruct (method req =? "GET")%string eqn:Hget; cbn [negb];
      [| intros [= <- <-]; discriminate Herror].
    all: apply String.eqb_eq in Hget.
    all: destruct (is_set (process_env "AIRTABLE_API_KEY")) eqn:Hkey; cbn [negb];
      [| intros [= <- <-]; repeat split; auto].
    all: destruct (is_set (process_env "AIRTABLE_BASE_ID")) eqn:Hbase; cbn [negb];
      [discriminate Hadmitted |].
    all: intros [= <- <-]; repeat split; auto.
Qed.

Lemma configuration_error_cause_witness :
  method get = "GET"
  /\ (is_set (unconfigured "AIRTABLE_API_KEY") = false
      \/ is_set (unconfigured "AIRTABLE_BASE_ID") = false)
  /\ (@nil Request) = []
  /\ statusCode
       (res_json (res_status (setCORSHeaders Vercel fresh_res) 500)
          (JObj [("success", JBool false);
                 ("error", JStr "Server configuration error");
                 ("message",
                  JStr "AIRTABLE_API_KEY environment variable is not set")]))
     = 500%N
  /\ ApiAirtable.AIRTABLE_TABLE_ID unconfigured <> ""
  /\ (is_set (unconfigured "AIRTABLE_TABLE_ID") = false ->
      ApiAirtable.AIRTABLE_TABLE_ID unconfigured = "tblDrUWfwkwMQM9yR").
Proof.
  apply (configuration_error_cause Vercel v8 two_pages unconfigured 4 get fresh_res
           (res_json (res_status (setCORSHeaders Vercel fresh_res) 500)
              (JObj [("success", JBool false);
                     ("error", JStr "Server configuration error");
                     ("message",
                      JStr "AIRTABLE_API_KEY environment variable is not set")]))
           [] []); reflexivity.
Defined.

(** X22.  The failure body discloses the stack trace of the error exactly
    when [NODE_ENV] is the string [development]; the Vercel file then adds
    the base id and the table id, [serverless-airtable.js] never does. *)
Theorem failure_disclosure (d : Deployment) (engine : Engine) (upstream : Upstream)
        (process_env : Env) (fuel : nat) (req : Req) (res res' : Res)
        (w w' w'' : World) (e : JsError) :
  admitted process_env req = true ->
  fetchAllRecords d engine upstream process_env fuel w = (Throws e, w') ->
  handler d engine upstream process_env fuel req res w = (Returns res', w'') ->
  (process_env "NODE_ENV" = Some "development" ->
   body_field "stack" res' = Some (JStr (stack e))
   /\ (d = Vercel ->
       body_field "baseId" res'
       = option_map JStr (process_env "AIRTABLE_BASE_ID")
       /\ body_field "tableId" res'
          = Some (JStr (ApiAirtable.AIRTABLE_TABLE_ID process_env))))
  /\ (process_env "NODE_ENV" <> Some "development" ->
      body_field "stack" res' = None
      /\ body_field "baseId" res' = None
      /\ body_field "tableId" res' = None)
  /\ (d = Serverless ->
      body_field "baseId" res' = None /\ body_field "tableId" res' = None).
Proof.
  intros Hadmitted Hfetch Hrun.
  rewrite (handler_admitted d engine upstream process_env fuel req res w Hadmitted),
    Hfetch in Hrun.
  injection Hrun as <- <-.
  unfold body_field, failure_body, development_fields.
  cbn [body res_json assoc app String.eqb Ascii.eqb Bool.eqb].
  split; [| split].
  - intros ->. cbn [strict_eq String.eqb Ascii.eqb Bool.eqb].
    destruct d; cbn [assoc app String.eqb Ascii.eqb Bool.eqb].
    + split; [reflexivity | discriminate].
    + split; [reflexivity |]. intros _.
      unfold admitted in Hadmitted. apply andb_prop in Hadmitted as [_ Hbase].
      destruct (is_set_inv _ Hbase) as (base & -> & _).
      split; reflexivity.
  - intros Hnode.
    assert (strict_eq (process_env "NODE_ENV") "development" = false) as ->.
    { destruct (process_env "NODE_ENV") as [s |]; [| reflexivity]. simpl.
      apply String.eqb_neq. congruence. }
    repeat split.
  - intros ->.
    destruct (strict_eq (process_env "NODE_ENV") "development"); split; reflexivity.
Qed.

Lemma failure_disclosure_witness :
  let res' :=
    res_json (res_status (setCORSHeaders Vercel fresh_res) 500)
      (failure_body Vercel development
         (new_Error v8 "fetch failed")) in
  (development "NODE_ENV" = Some "development" ->
   body_field "stack" res' = Some (JStr (stack (new_Error v8 "fetch failed")))
   /\ (Vercel = Vercel ->
       body_field "baseId" res' = option_map JStr (development "AIRTABLE_BASE_ID")
       /\ body_field "tableId" res'
          = Some (JStr (ApiAirtable.AIRTABLE_TABLE_ID development))))
  /\ (development "NODE_ENV" <> Some "development" ->
      body_field "stack" res' = None
      /\ body_field "baseId" res' = None
      /\ body_field "tableId" res' = None)
  /\ (Vercel = Serverless ->
      body_field "baseId" res' = None /\ body_field "tableId" res' = None).
Proof.
  apply (failure_disclosure Vercel v8 (rejecting (new_Error v8 "fetch failed"))
           development 2 get fresh_res _ [] [page_request Vercel development JNull]
           [page_request Vercel development JNull] (new_Error v8 "fetch failed"));
    reflexivity.
Defined.
